(** * Teacher competency bot: the flow of [teacher_bot_new.py]

    A shallow embedding of [TeacherCompetencyFSM]: the variable store
    [TeacherCompetencyVariables], the transition table, the guard methods
    and the [on_enter_*] handlers, followed by the properties of the flow.

    A handler is a function from the context it runs in (variable store,
    status, current input, messages sent) to the context it leaves, or to
    the exception it raises together with the context at that point.  The
    content provider and the user are inputs: a handler that calls
    [Parser.parse_user_input] receives the provider's answer as an argument.
    The base class [AbstractFSM] is not part of the file; its edge selection
    and its run loop are modelled from the specification and marked so. *)

From Stdlib Require Import ZArith QArith List String Ascii Bool Lia.
From Stdlib Require Import DecimalString.
Import ListNotations.
Local Open Scope string_scope.
Local Open Scope Z_scope.
Set Warnings "-register-all".

(** ** Python values

    The values that travel through the handlers are what [json.loads] and
    the content provider hand back: [None], booleans, integers, floats,
    strings, lists and dictionaries with string keys.  A finite float is
    kept by its exact value; a dictionary is kept in insertion order. *)

Inductive pyval : Type :=
| PNone
| PBool (b : bool)
| PInt (z : Z)
| PFloat (q : Q)
| PNaN
| PInf (negative : bool)
| PStr (s : string)
| PList (l : list pyval)
| PDict (d : list (string * pyval)).

(** The exceptions the handlers can meet. *)
Inductive exn : Type :=
| KeyError
| IndexError
| TypeError
| AttributeError
| UnboundLocalError
| JSONDecodeError
| ValidationError
| ProviderError.

(** A computation that either yields a value or raises. *)
Inductive res (A : Type) : Type :=
| Val (a : A)
| Exc (e : exn).
Arguments Val {A} a.
Arguments Exc {A} e.

Definition res_bind {A B} (r : res A) (f : A -> res B) : res B :=
  match r with
  | Val a => f a
  | Exc e => Exc e
  end.

Module Py.

(** [d[k]] on association lists. *)
Fixpoint lookup (k : string) (d : list (string * pyval)) : option pyval :=
  match d with
  | [] => None
  | (k', v) :: d' => if String.eqb k k' then Some v else lookup k d'
  end.

(** The number behind a value of the numeric tower ([True == 1]). *)
Definition as_num (v : pyval) : option Q :=
  match v with
  | PBool b => Some (if b then 1%Q else 0%Q)
  | PInt z => Some (inject_Z z)
  | PFloat q => Some q
  | _ => None
  end.

(** [a == b]: numbers by value, strings and lists structurally,
    dictionaries key by key whatever the order, [nan] equal to nothing. *)
Fixpoint eq (a b : pyval) {struct a} : bool :=
  match as_num a, as_num b with
  | Some x, Some y => Qeq_bool x y
  | _, _ =>
    match a, b with
    | PNone, PNone => true
    | PInf s, PInf t => Bool.eqb s t
    | PStr s, PStr t => String.eqb s t
    | PList l, PList m =>
        (fix go (l m : list pyval) {struct l} : bool :=
           match l, m with
           | [], [] => true
           | x :: l', y :: m' => eq x y && go l' m'
           | _, _ => false
           end) l m
    | PDict d, PDict e =>
        Nat.eqb (List.length d) (List.length e) &&
        (fix go (d : list (string * pyval)) : bool :=
           match d with
           | [] => true
           | (k, v) :: d' =>
               match lookup k e with
               | Some w => eq v w
               | None => false
               end && go d'
           end) d
    | _, _ => false
    end
  end.

(** [v is None]. *)
Definition is_none (v : pyval) : bool :=
  match v with
  | PNone => true
  | _ => false
  end.

Definition chars (s : string) : list pyval :=
  map (fun c => PStr (String c EmptyString)) (list_ascii_of_string s).

(** [v[key]] with a string key. *)
Definition getitem (v : pyval) (key : string) : res pyval :=
  match v with
  | PDict d =>
      match lookup key d with
      | Some x => Val x
      | None => Exc KeyError
      end
  | _ => Exc TypeError
  end.

(** [v[i]] with an integer index; a negative index counts from the end. *)
Definition getindex (v : pyval) (i : Z) : res pyval :=
  let pick (l : list pyval) : res pyval :=
    let n := Z.of_nat (List.length l) in
    let j := if i <? 0 then i + n else i in
    if (j <? 0) || (n <=? j) then Exc IndexError
    else match nth_error l (Z.to_nat j) with
         | Some x => Val x
         | None => Exc IndexError
         end in
  match v with
  | PList l => pick l
  | PStr s => pick (chars s)
  | PDict _ => Exc KeyError
  | _ => Exc TypeError
  end.

(** The elements a [for] loop or a comprehension walks through. *)
Definition iter (v : pyval) : res (list pyval) :=
  match v with
  | PList l => Val l
  | PStr s => Val (chars s)
  | PDict d => Val (map (fun kv => PStr (fst kv)) d)
  | _ => Exc TypeError
  end.

(** [v.items()]. *)
Definition items (v : pyval) : res (list (string * pyval)) :=
  match v with
  | PDict d => Val d
  | _ => Exc AttributeError
  end.

(** ['lit' + v]. *)
Definition concat (lit : string) (v : pyval) : res string :=
  match v with
  | PStr s => Val (lit ++ s)%string
  | _ => Exc TypeError
  end.

Fixpoint join_strs (sep : string) (l : list pyval) : res string :=
  match l with
  | [] => Val EmptyString
  | [PStr s] => Val s
  | PStr s :: l' =>
      res_bind (join_strs sep l') (fun t => Val (s ++ sep ++ t)%string)
  | _ :: _ => Exc TypeError
  end.

(** [sep.join(v)]. *)
Definition join (sep : string) (v : pyval) : res string :=
  res_bind (iter v) (join_strs sep).

(** [v.append(x)], giving the list after the call. *)
Definition append (v x : pyval) : res pyval :=
  match v with
  | PList l => Val (PList (l ++ [x]))
  | _ => Exc AttributeError
  end.

(** [str(z)] for an integer. *)
Definition str_int (z : Z) : string := NilZero.string_of_int (Z.to_int z).

(** An [Optional[str]] field inside an f-string. *)
Definition str_opt (o : option string) : string :=
  match o with
  | Some s => s
  | None => "None"
  end.

Definition of_input (o : option string) : pyval :=
  match o with
  | Some s => PStr s
  | None => PNone
  end.

End Py.

(** ** The variable store ([TeacherCompetencyVariables])

    The model class does not validate assignments, so a field that is
    written from decoded data holds whatever value was assigned. *)

Record Vars : Type := mkVars {
  name : option string;
  language : option string;
  subject : option string;
  grade : option string;
  competency_domain : option string;
  quiz_score : option Z;
  home_screen_option : pyval;
  question_list : pyval;
  total_num_question : Z;
  question_count : Z;
  current_question_id : pyval;
  user_input_param : pyval
}.

(** The declared defaults. *)
Definition default_vars : Vars :=
  {| name := None; language := None; subject := None; grade := None;
     competency_domain := None; quiz_score := None;
     home_screen_option := PNone; question_list := PNone;
     total_num_question := 5; question_count := 0;
     current_question_id := PNone; user_input_param := PList [] |}.

Definition with_name (x : option string) (v : Vars) : Vars :=
  mkVars x (language v) (subject v) (grade v) (competency_domain v)
    (quiz_score v) (home_screen_option v) (question_list v)
    (total_num_question v) (question_count v) (current_question_id v)
    (user_input_param v).

Definition with_subject (x : option string) (v : Vars) : Vars :=
  mkVars (name v) (language v) x (grade v) (competency_domain v)
    (quiz_score v) (home_screen_option v) (question_list v)
    (total_num_question v) (question_count v) (current_question_id v)
    (user_input_param v).

Definition with_grade (x : option string) (v : Vars) : Vars :=
  mkVars (name v) (language v) (subject v) x (competency_domain v)
    (quiz_score v) (home_screen_option v) (question_list v)
    (total_num_question v) (question_count v) (current_question_id v)
    (user_input_param v).

Definition with_home_screen_option (x : pyval) (v : Vars) : Vars :=
  mkVars (name v) (language v) (subject v) (grade v) (competency_domain v)
    (quiz_score v) x (question_list v)
    (total_num_question v) (question_count v) (current_question_id v)
    (user_input_param v).

Definition with_question_list (x : pyval) (v : Vars) : Vars :=
  mkVars (name v) (language v) (subject v) (grade v) (competency_domain v)
    (quiz_score v) (home_screen_option v) x
    (total_num_question v) (question_count v) (current_question_id v)
    (user_input_param v).

Definition with_question_count (x : Z) (v : Vars) : Vars :=
  mkVars (name v) (language v) (subject v) (grade v) (competency_domain v)
    (quiz_score v) (home_screen_option v) (question_list v)
    (total_num_question v) x (current_question_id v)
    (user_input_param v).

Definition with_current_question_id (x : pyval) (v : Vars) : Vars :=
  mkVars (name v) (language v) (subject v) (grade v) (competency_domain v)
    (quiz_score v) (home_screen_option v) (question_list v)
    (total_num_question v) (question_count v) x
    (user_input_param v).

Definition with_user_input_param (x : pyval) (v : Vars) : Vars :=
  mkVars (name v) (language v) (subject v) (grade v) (competency_domain v)
    (quiz_score v) (home_screen_option v) (question_list v)
    (total_num_question v) (question_count v) (current_question_id v)
    x.

(** ** Statuses and outbound messages *)

Inductive Status : Type :=
| WAIT_FOR_ME
| WAIT_FOR_USER_INPUT
| WAIT_FOR_CALLBACK
| MOVE_FORWARD.

(** The statuses on which a handler may end. *)
Definition terminal (s : Status) : bool :=
  match s with
  | WAIT_FOR_ME => false
  | _ => true
  end.

Record Option_ : Type := mkOption {
  option_id : string;
  option_text : string
}.

Inductive Message : Type :=
| TextMessage (body : string)
| ButtonMessage (body header footer : string) (options : list Option_)
| ListMessage (body header footer button_text list_title : string)
    (options : list Option_).

(** ** The context a handler runs in

    [sent] lists the messages handed to [send_message], oldest first;
    [status_log] lists every assignment to [self.status], oldest first. *)

Record Ctx : Type := mkCtx {
  variables : Vars;
  status : Status;
  current_input : option string;
  sent : list Message;
  status_log : list Status
}.

Inductive outcome (A : Type) : Type :=
| Returned (a : A) (c : Ctx)
| Raised (e : exn) (c : Ctx).
Arguments Returned {A} a c.
Arguments Raised {A} e c.

Definition M (A : Type) : Type := Ctx -> outcome A.

Definition ret {A} (a : A) : M A := fun c => Returned a c.

Definition bind {A B} (m : M A) (f : A -> M B) : M B :=
  fun c =>
    match m c with
    | Returned a c' => f a c'
    | Raised e c' => Raised e c'
    end.

Definition raise {A} (e : exn) : M A := fun c => Raised e c.

Definition lift {A} (r : res A) : M A :=
  match r with
  | Val a => ret a
  | Exc e => raise e
  end.

Module HandlerNotations.
Notation "'let*' x ':=' m 'in' k" := (bind m (fun x => k))
  (at level 10, x name, m at level 100, k at level 200).
Notation "m >> k" := (bind m (fun _ => k))
  (at level 90, right associativity).
End HandlerNotations.
Import HandlerNotations.

Definition get_vars : M Vars := fun c => Returned (variables c) c.

Definition get_input : M (option string) :=
  fun c => Returned (current_input c) c.

(** [setattr(self.variables, field, value)], as a store update. *)
Definition setattr (f : Vars -> Vars) : M unit :=
  fun c =>
    Returned tt (mkCtx (f (variables c)) (status c) (current_input c)
                   (sent c) (status_log c)).

(** [self.status = s]. *)
Definition set_status (s : Status) : M unit :=
  fun c =>
    Returned tt (mkCtx (variables c) s (current_input c) (sent c)
                   (status_log c ++ [s])).

(** [self.send_message(FSMOutput(intent=SEND_MESSAGE, message=m))]. *)
Definition send_message (m : Message) : M unit :=
  fun c =>
    Returned tt (mkCtx (variables c) (status c) (current_input c)
                   (sent c ++ [m]) (status_log c)).

Definition send_text (body : string) : M unit :=
  send_message (TextMessage body).

Definition nl : string := String (ascii_of_nat 10) EmptyString.

(** ** States, guards and the transition table *)

Inductive State : Type :=
| zero
| language_selection
| welcome_message_display
| collect_name
| collect_name_logic
| collect_subject
| collect_subject_logic
| collect_grade
| collect_grade_logic
| confirmation
| show_question
| question_answer_input
| answer_input_logic
| waiting_message
| calculate_score
| thankyou_message
| home_screen
| home_screen_logic
| learn_competencies
| assessment
| resources_tips
| help_support
| end_.

Definition states : list State :=
  [zero; language_selection; welcome_message_display; collect_name;
   collect_name_logic; collect_subject; collect_subject_logic;
   collect_grade; collect_grade_logic; confirmation; show_question;
   question_answer_input; answer_input_logic; waiting_message;
   calculate_score; thankyou_message; home_screen; home_screen_logic;
   learn_competencies; assessment; resources_tips; help_support; end_].

Definition State_eqb (a b : State) : bool :=
  match a, b with
  | zero, zero | language_selection, language_selection
  | welcome_message_display, welcome_message_display
  | collect_name, collect_name | collect_name_logic, collect_name_logic
  | collect_subject, collect_subject
  | collect_subject_logic, collect_subject_logic
  | collect_grade, collect_grade | collect_grade_logic, collect_grade_logic
  | confirmation, confirmation | show_question, show_question
  | question_answer_input, question_answer_input
  | answer_input_logic, answer_input_logic
  | waiting_message, waiting_message | calculate_score, calculate_score
  | thankyou_message, thankyou_message | home_screen, home_screen
  | home_screen_logic, home_screen_logic
  | learn_competencies, learn_competencies | assessment, assessment
  | resources_tips, resources_tips | help_support, help_support
  | end_, end_ => true
  | _, _ => false
  end.

(** The named conditions of the table. *)
Inductive Guard : Type :=
| is_learn_competencies_selected
| is_assessment_selected
| is_resources_tips_selected
| is_help_support_selected
| is_send_another_question.

(** The guard methods, as functions of the variable store. *)
Definition eval_guard (g : Guard) (v : Vars) : bool :=
  match g with
  | is_learn_competencies_selected =>
      Py.eq (home_screen_option v) (PStr "competencies")
  | is_assessment_selected =>
      Py.eq (home_screen_option v) (PStr "assessment")
  | is_resources_tips_selected =>
      Py.eq (home_screen_option v) (PStr "resources")
  | is_help_support_selected =>
      Py.eq (home_screen_option v) (PStr "help")
  | is_send_another_question =>
      if total_num_question v =? question_count v then false else true
  end.

Record Transition : Type := mkTransition {
  source : State;
  dest : State;
  trigger : string;
  conditions : option Guard
}.

Definition edge (s d : State) : Transition := mkTransition s d "next" None.

Definition edge_if (s d : State) (g : Guard) : Transition :=
  mkTransition s d "next" (Some g).

Definition transitions : list Transition :=
  [ edge zero language_selection;
    edge language_selection welcome_message_display;
    edge welcome_message_display collect_name;
    edge collect_name collect_name_logic;
    edge collect_name_logic collect_subject;
    edge collect_subject collect_subject_logic;
    edge collect_subject_logic collect_grade;
    edge collect_grade collect_grade_logic;
    edge collect_grade_logic confirmation;
    edge confirmation home_screen;
    edge home_screen home_screen_logic;
    edge_if home_screen_logic learn_competencies
      is_learn_competencies_selected;
    edge_if home_screen_logic assessment is_assessment_selected;
    edge_if home_screen_logic resources_tips is_resources_tips_selected;
    edge_if home_screen_logic help_support is_help_support_selected;
    edge assessment show_question;
    edge show_question question_answer_input;
    edge question_answer_input answer_input_logic;
    edge_if answer_input_logic show_question is_send_another_question;
    edge answer_input_logic waiting_message;
    edge waiting_message calculate_score;
    edge calculate_score thankyou_message;
    edge learn_competencies home_screen;
    edge thankyou_message home_screen ].

(** The edges that leave [s] on [trig], in declaration order. *)
Definition outgoing (s : State) (trig : string) : list Transition :=
  filter (fun t => State_eqb (source t) s && String.eqb (trigger t) trig)
    transitions.

Definition edge_enabled (v : Vars) (t : Transition) : bool :=
  match conditions t with
  | Some g => eval_guard g v
  | None => true
  end.

(** Modelled from the spec: the edge selection of the engine, which lives in
    [AbstractFSM] outside this file.  Among the edges of [s] for the trigger,
    in declaration order, the first one whose guard holds (an edge without a
    guard always does) gives the destination; [None] when no edge matches. *)
Definition select_edge (s : State) (trig : string) (v : Vars)
  : option Transition :=
  find (edge_enabled v) (outgoing s trig).

Definition next_state (s : State) (v : Vars) : option State :=
  option_map dest (select_edge s "next" v).

(** ** Library functions the handlers call

    [json.loads], [str] inside f-strings and the validation of a [str] field
    of the message models belong to libraries; the handlers below take them
    as parameters.  The three definitions of this section are the instances
    the concrete scenarios run with. *)

Module Json.

Definition is_ws (c : ascii) : bool :=
  let n := nat_of_ascii c in
  (n =? 32)%nat || (n =? 9)%nat || (n =? 10)%nat || (n =? 13)%nat.

Fixpoint skip_ws (cs : list ascii) : list ascii :=
  match cs with
  | c :: r => if is_ws c then skip_ws r else cs
  | [] => []
  end.

Definition is_digit (c : ascii) : bool :=
  let n := nat_of_ascii c in (48 <=? n)%nat && (n <=? 57)%nat.

Definition is_quote (c : ascii) : bool := (nat_of_ascii c =? 34)%nat.

Definition is_char (x : string) (c : ascii) : bool :=
  String.eqb x (String c EmptyString).

(** The characters of a string literal up to its closing quote; escapes
    and control characters are not decoded. *)
Fixpoint string_body (cs : list ascii) : option (string * list ascii) :=
  match cs with
  | [] => None
  | c :: r =>
      if is_quote c then Some (EmptyString, r)
      else if (nat_of_ascii c =? 92)%nat || (nat_of_ascii c <? 32)%nat
      then None
      else match string_body r with
           | Some (s, r') => Some (String c s, r')
           | None => None
           end
  end.

Fixpoint digits (acc : Z) (cs : list ascii) : Z * list ascii :=
  match cs with
  | c :: r =>
      if is_digit c
      then digits (10 * acc + Z.of_nat (nat_of_ascii c - 48)) r
      else (acc, cs)
  | [] => (acc, [])
  end.

(** An integer literal; a fraction or an exponent is not decoded. *)
Definition number (cs : list ascii) : option (Z * list ascii) :=
  let '(neg, r) :=
    match cs with
    | c :: r => if is_char "-" c then (true, r) else (false, cs)
    | [] => (false, cs)
    end in
  match r with
  | c :: r1 =>
      if is_digit c then
        let '(z, r2) := digits 0 r in
        let leading_zero := is_char "0" c &&
          match r1 with d :: _ => is_digit d | [] => false end in
        let float_mark :=
          match r2 with
          | d :: _ => is_char "." d || is_char "e" d || is_char "E" d
          | [] => false
          end in
        if leading_zero || float_mark then None
        else Some (if neg then - z else z, r2)
      else None
  | [] => None
  end.

Fixpoint strip (w : list ascii) (cs : list ascii) : option (list ascii) :=
  match w, cs with
  | [], _ => Some cs
  | a :: w', c :: r => if Ascii.eqb a c then strip w' r else None
  | _ :: _, [] => None
  end.

Definition keyword (w : string) (cs : list ascii) : option (list ascii) :=
  strip (list_ascii_of_string w) cs.

(** A later occurrence of a key replaces the value of the earlier one. *)
Fixpoint dict_set (k : string) (v : pyval) (d : list (string * pyval))
  : list (string * pyval) :=
  match d with
  | [] => [(k, v)]
  | (k', v') :: d' =>
      if String.eqb k k' then (k', v) :: d' else (k', v') :: dict_set k v d'
  end.

Fixpoint value (n : nat) (cs : list ascii) : option (pyval * list ascii) :=
  match n with
  | O => None
  | S n =>
      match skip_ws cs with
      | [] => None
      | c :: r =>
          if is_char "[" c then
            match skip_ws r with
            | c' :: r' =>
                if is_char "]" c' then Some (PList [], r')
                else match elements n r with
                     | Some (l, r'') => Some (PList l, r'')
                     | None => None
                     end
            | [] => None
            end
          else if is_char "{" c then
            match skip_ws r with
            | c' :: r' =>
                if is_char "}" c' then Some (PDict [], r')
                else match members n r with
                     | Some (d, r'') =>
                         Some (PDict (fold_left
                                        (fun acc kv =>
                                           dict_set (fst kv) (snd kv) acc)
                                        d []), r'')
                     | None => None
                     end
            | [] => None
            end
          else if is_quote c then
            match string_body r with
            | Some (s, r') => Some (PStr s, r')
            | None => None
            end
          else
            match keyword "null" (c :: r), keyword "true" (c :: r),
                  keyword "false" (c :: r) with
            | Some r', _, _ => Some (PNone, r')
            | _, Some r', _ => Some (PBool true, r')
            | _, _, Some r' => Some (PBool false, r')
            | _, _, _ =>
                match number (c :: r) with
                | Some (z, r') => Some (PInt z, r')
                | None => None
                end
            end
      end
  end
with elements (n : nat) (cs : list ascii)
  : option (list pyval * list ascii) :=
  match n with
  | O => None
  | S n =>
      match value n cs with
      | Some (v, r) =>
          match skip_ws r with
          | c :: r' =>
              if is_char "," c then
                match elements n r' with
                | Some (l, r'') => Some (v :: l, r'')
                | None => None
                end
              else if is_char "]" c then Some ([v], r')
              else None
          | [] => None
          end
      | None => None
      end
  end
with members (n : nat) (cs : list ascii)
  : option (list (string * pyval) * list ascii) :=
  match n with
  | O => None
  | S n =>
      match skip_ws cs with
      | q :: r =>
          if is_quote q then
            match string_body r with
            | Some (k, r1) =>
                match skip_ws r1 with
                | c :: r2 =>
                    if is_char ":" c then
                      match value n r2 with
                      | Some (v, r3) =>
                          match skip_ws r3 with
                          | c' :: r4 =>
                              if is_char "," c' then
                                match members n r4 with
                                | Some (d, r5) => Some ((k, v) :: d, r5)
                                | None => None
                                end
                              else if is_char "}" c' then Some ([(k, v)], r4)
                              else None
                          | [] => None
                          end
                      | None => None
                      end
                    else None
                | [] => None
                end
            | None => None
            end
          else None
      | [] => None
      end
  end.

(** [json.loads] on the texts whose strings carry no escape and whose
    numbers are integers; any other text is refused. *)
Definition loads (s : string) : res pyval :=
  match value (S (String.length s)) (list_ascii_of_string s) with
  | Some (v, r) =>
      match skip_ws r with
      | [] => Val v
      | _ :: _ => Exc JSONDecodeError
      end
  | None => Exc JSONDecodeError
  end.

End Json.

(** [str] on the scalars that have a fixed text. *)
Definition str_scalar (v : pyval) : string :=
  match v with
  | PNone => "None"
  | PBool true => "True"
  | PBool false => "False"
  | PInt z => Py.str_int z
  | PStr s => s
  | PNaN => "nan"
  | PInf true => "-inf"
  | PInf false => "inf"
  | PFloat _ => "<float>"
  | PList _ => "<list>"
  | PDict _ => "<dict>"
  end.

(** A [str] field that accepts strings only. *)
Definition strict_str (v : pyval) : res string :=
  match v with
  | PStr s => Val s
  | _ => Exc ValidationError
  end.

Definition dq : string := String (ascii_of_nat 34) EmptyString.

(** The selection payload [[{"option_id": id}]] as the channel sends it. *)
Definition selection_payload (id : string) : string :=
  "[{" ++ dq ++ "option_id" ++ dq ++ ":" ++ dq ++ id ++ dq ++ "}]".

(** The context an outcome leaves behind. *)
Definition ctx_of {A} (o : outcome A) : Ctx :=
  match o with
  | Returned _ c => c
  | Raised _ c => c
  end.

(** [m] leaves the component [f] of the context as it found it, whether it
    returns or raises. *)
Definition preserves {A B} (f : Ctx -> B) (m : M A) : Prop :=
  forall c, f (ctx_of (m c)) = f c.

(** The language prompt as a message and a pause. *)
Definition select_language_prompt : M unit :=
  set_status WAIT_FOR_ME >>
  send_text "Please select your preferred language." >>
  set_status WAIT_FOR_USER_INPUT.

(** A context around the declared defaults, nothing sent yet. *)
Definition initial_ctx (i : option string) : Ctx :=
  mkCtx default_vars WAIT_FOR_ME i [] [].

(** A question the way the provider is asked to phrase it. *)
Definition sample_question (n : Z) : pyval :=
  PDict [ ("question_id", PInt n);
          ("question", PStr "Which option fits?");
          ("options", PDict [ ("A", PStr "first"); ("B", PStr "second");
                              ("C", PStr "third"); ("D", PStr "fourth") ]);
          ("answer", PStr "A") ].

Definition sample_questions (n : nat) : list pyval :=
  map (fun i => sample_question (Z.of_nat i)) (seq 1 n).

(** The provider's answer with [n] questions under [result]. *)
Definition sample_reply (n : nat) : res pyval :=
  Val (PDict [("result", PList (sample_questions n))]).

(** What the user sends along a session that walks to the home screen and
    there selects [choice]: a language, a name, a subject, a grade, the
    selection.  [sample_inputs choice k] is the input buffer after the
    [k]-th handler. *)
Definition sample_inputs (choice : string) (k : nat) : option string :=
  if (k <? 2)%nat then Some "English"
  else if (k <? 4)%nat then Some "Asha"
  else if (k <? 6)%nat then Some "Science"
  else if (k <? 9)%nat then Some "7"
  else Some (selection_payload choice).

(** The declared defaults with the repeat bound of the quiz set to 0. *)
Definition zero_bound_ctx : Ctx :=
  mkCtx (mkVars None None None None None None PNone PNone 0 0 PNone
           (PList []))
    WAIT_FOR_ME None [] [].

(** ** The handlers *)

Section Flow.

(** [json.loads]. *)
Variable json_loads : string -> res pyval.

(** [str] as an f-string applies it to a decoded value. *)
Variable py_str : pyval -> string.

(** The validation of a [str] field of [Option] and [TextMessage]. *)
Variable validate_str : pyval -> res string.

(** [AbstractFSM._on_enter_select_language], defined outside this file. *)
Variable select_language : M unit.

(** A [str] field accepts a string as it is. *)
Hypothesis validate_str_text : forall s, validate_str (PStr s) = Val s.

(** The language prompt does not write the repeat bound of the quiz. *)
Hypothesis select_language_keeps_bound :
  preserves (fun c => total_num_question (variables c)) select_language.

(** [Parser.parse_user_input]: the provider's answer to the one request a
    handler makes is an input of the handler; the request text does not
    bind it. *)
Definition parse_user_input (reply : res pyval) : M pyval := lift reply.

Definition standard_ask_again (message : option string) : M unit :=
  set_status WAIT_FOR_ME >>
  let message :=
    match message with
    | None =>
        "Sorry, I did not understand your question. Can you tell me again?"
    | Some m => m
    end in
  send_text message >>
  set_status MOVE_FORWARD.

Definition on_enter_language_selection : M unit := select_language.

Definition on_enter_welcome_message_display : M unit :=
  set_status WAIT_FOR_ME >>
  send_text "Welcome to the Teacher Competency Tool! Let's start your journey to becoming an even more amazing teacher! 😊" >>
  set_status MOVE_FORWARD.

Definition on_enter_collect_name : M unit :=
  set_status WAIT_FOR_ME >>
  send_text "Please enter your name." >>
  set_status WAIT_FOR_USER_INPUT.

Definition on_enter_collect_name_logic : M unit :=
  set_status WAIT_FOR_ME >>
  (let* i := get_input in setattr (with_name i)) >>
  set_status MOVE_FORWARD.

Definition on_enter_collect_subject : M unit :=
  set_status WAIT_FOR_ME >>
  send_text "What subject do you teach?" >>
  set_status WAIT_FOR_USER_INPUT.

Definition on_enter_collect_subject_logic : M unit :=
  set_status WAIT_FOR_ME >>
  (let* i := get_input in setattr (with_subject i)) >>
  set_status MOVE_FORWARD.

Definition on_enter_collect_grade : M unit :=
  set_status WAIT_FOR_ME >>
  send_text "Which grade do you teach?" >>
  set_status WAIT_FOR_USER_INPUT.

Definition on_enter_collect_grade_logic : M unit :=
  set_status WAIT_FOR_ME >>
  (let* i := get_input in setattr (with_grade i)) >>
  set_status MOVE_FORWARD.

Definition on_enter_confirmation : M unit :=
  set_status WAIT_FOR_ME >>
  (let* v := get_vars in
   send_text ("Thank you, " ++ Py.str_opt (name v) ++ "! You teach "
              ++ Py.str_opt (subject v) ++ " for Grade "
              ++ Py.str_opt (grade v) ++ ". Let's begin!")) >>
  set_status MOVE_FORWARD.

Definition home_screen_slots : list Option_ :=
  [ mkOption "competencies" "Learn about competencies";
    mkOption "assessment" "Take an assessment";
    mkOption "resources" "Resources & Tips";
    mkOption "help" "Help/Support" ].

Definition on_enter_home_screen : M unit :=
  set_status WAIT_FOR_ME >>
  send_message
    (ButtonMessage "What would you like to do today?" EmptyString
       EmptyString
       home_screen_slots) >>
  set_status WAIT_FOR_USER_INPUT.

(** [json.loads(self.current_input)]; an input that is not text is a
    [TypeError]. *)
Definition loads_input (i : option string) : res pyval :=
  match i with
  | Some s => json_loads s
  | None => Exc TypeError
  end.

Definition on_enter_home_screen_logic : M unit :=
  set_status WAIT_FOR_ME >>
  (let* i := get_input in
   let* options_list := lift (loads_input i) in
   let* first := lift (Py.getindex options_list 0) in
   let* option_id := lift (Py.getitem first "option_id") in
   setattr (with_home_screen_option option_id)) >>
  set_status MOVE_FORWARD.

(** The body of the loop over [result['competencies']]: one message per
    competency, the heading going out with the first. *)
Fixpoint send_competencies (message : string) (l : list pyval) : M unit :=
  match l with
  | [] => ret tt
  | competency :: l' =>
      let* category := lift (Py.getitem competency "category") in
      let* description := lift (Py.getitem competency "description") in
      let* examples := lift (Py.getitem competency "examples") in
      let* joined := lift (Py.join ", " examples) in
      send_text (message ++ "*Category:* " ++ py_str category ++ nl
                 ++ "*Description:* " ++ py_str description ++ nl
                 ++ "*Examples:* " ++ joined) >>
      send_competencies EmptyString l'
  end.

Definition on_enter_learn_competencies (reply : res pyval) : M unit :=
  set_status WAIT_FOR_ME >>
  (let* v := get_vars in
   let message :=
     "Let's learn about the essential competencies for teaching grade *"
     ++ Py.str_opt (grade v) ++ "* *" ++ Py.str_opt (subject v) ++ "*."
     ++ nl in
   let* result := parse_user_input reply in
   let* competencies := lift (Py.getitem result "competencies") in
   let* l := lift (Py.iter competencies) in
   send_competencies message l) >>
  set_status MOVE_FORWARD.

Definition on_enter_assessment : M unit :=
  set_status WAIT_FOR_ME >>
  setattr (with_question_count 0) >>
  setattr (with_user_input_param (PList [])) >>
  setattr (with_question_list PNone) >>
  setattr (with_current_question_id PNone) >>
  (let* v := get_vars in
   send_text ("Ready for a quick quiz on " ++ Py.str_opt (subject v)
              ++ "? Let's go! 😊")) >>
  set_status MOVE_FORWARD.

Definition on_enter_preparing_question : M unit :=
  set_status WAIT_FOR_ME >>
  send_text "Please wait while we are preparing question for you." >>
  set_status MOVE_FORWARD.

(** The assignment to [question_list] sits in a [try] whose [except]
    stores [None]; the assignment does not raise. *)
Definition get_question_from_openai (reply : res pyval) : M pyval :=
  let* result := parse_user_input reply in
  let* result := lift (Py.getitem result "result") in
  setattr (with_question_list result) >>
  ret result.

Fixpoint make_options (l : list (string * pyval)) : M (list Option_) :=
  match l with
  | [] => ret []
  | (key, value) :: l' =>
      let* text := lift (validate_str value) in
      let* rest := make_options l' in
      ret (mkOption key text :: rest)
  end.

(** The two [if] blocks that open [on_enter_show_question].  The locals
    [question], [question_id] and [options] travel as a triple; [options]
    is unbound until one of the blocks binds it. *)
Definition show_question_locals (reply : res pyval)
  : M (string * pyval * option pyval) :=
  let* v := get_vars in
  let* locals :=
    if Py.is_none (question_list v) then
      let* get_question := get_question_from_openai reply in
      let* q0 := lift (Py.getindex get_question 0) in
      let* text := lift (Py.getitem q0 "question") in
      let* question := lift (Py.concat "Question 1: " text) in
      let* question_id := lift (Py.getitem q0 "question_id") in
      let* options := lift (Py.getitem q0 "options") in
      ret (question, question_id, Some options)
    else ret (EmptyString, PStr EmptyString, None) in
  let* v := get_vars in
  if negb (question_count v =? 0) then
    let next_question_num := question_count v in
    let* q := lift (Py.getindex (question_list v) next_question_num) in
    let* text := lift (Py.getitem q "question") in
    let* question :=
      lift (Py.concat
              ("Question " ++ Py.str_int (next_question_num + 1) ++ ": ")
              text) in
    let* question_id := lift (Py.getitem q "question_id") in
    let* options := lift (Py.getitem q "options") in
    ret (question, question_id, Some options)
  else ret locals.

Definition on_enter_show_question (reply : res pyval) : M unit :=
  set_status WAIT_FOR_CALLBACK >>
  (let* locals := show_question_locals reply in
   let '(question, question_id, options) := locals in
   let* options :=
     match options with
     | Some o => ret o
     | None => raise UnboundLocalError
     end in
   let* pairs := lift (Py.items options) in
   let* options_list := make_options pairs in
   send_message
     (ListMessage question EmptyString EmptyString "Question Answer"
        "Question Answer"
        options_list) >>
   setattr (with_current_question_id question_id)) >>
  set_status MOVE_FORWARD.

Definition on_enter_question_answer_input : M unit :=
  set_status WAIT_FOR_ME >>
  (let* v := get_vars in
   let value := question_count v in
   setattr (with_question_count (value + 1))) >>
  set_status WAIT_FOR_USER_INPUT.

(** [[q for q in question_list if q["question_id"] == current_question_id]]. *)
Fixpoint questions_with_id (l : list pyval) (id : pyval)
  : res (list pyval) :=
  match l with
  | [] => Val []
  | ques_list :: l' =>
      res_bind (Py.getitem ques_list "question_id") (fun x =>
      res_bind (questions_with_id l' id) (fun rest =>
      Val (if Py.eq x id then ques_list :: rest else rest)))
  end.

Definition on_enter_answer_input_logic : M unit :=
  set_status WAIT_FOR_ME >>
  (let* v := get_vars in
   let current_question_id := current_question_id v in
   let question_list := question_list v in
   let* l := lift (Py.iter question_list) in
   let* current_ques_param :=
     lift (questions_with_id l current_question_id) in
   let* first := lift (Py.getindex (PList current_ques_param) 0) in
   let* question := lift (Py.getitem first "question") in
   let* options := lift (Py.getitem first "options") in
   let* answer := lift (Py.getitem first "answer") in
   let* i := get_input in
   let curret_user_input_param :=
     PDict [ ("question_id", current_question_id);
             ("question", question);
             ("options", options);
             ("answer", answer);
             ("selected_option", Py.of_input i) ] in
   let* updated_user_input :=
     lift (Py.append (user_input_param v) curret_user_input_param) in
   setattr (with_user_input_param updated_user_input)) >>
  set_status MOVE_FORWARD.

Definition on_enter_waiting_message : M unit :=
  set_status WAIT_FOR_ME >>
  send_text "Please wait while we are calculating your score" >>
  set_status MOVE_FORWARD.

Definition on_enter_calculate_score (reply : res pyval) : M unit :=
  set_status WAIT_FOR_ME >>
  (let* result := parse_user_input reply in
   let* message := lift (Py.getitem result "result") in
   let* body := lift (validate_str message) in
   send_text body) >>
  set_status MOVE_FORWARD.

Definition on_enter_thankyou_message : M unit :=
  set_status WAIT_FOR_ME >>
  setattr (with_question_count 0) >>
  setattr (with_user_input_param (PList [])) >>
  setattr (with_question_list PNone) >>
  setattr (with_current_question_id PNone) >>
  send_text "Thank you for attempting MX Quiz!" >>
  set_status MOVE_FORWARD.

(** The body of the loop over [result['resources']]. *)
Fixpoint send_resources (message : string) (l : list pyval) : M unit :=
  match l with
  | [] => ret tt
  | resource :: l' =>
      let* title := lift (Py.getitem resource "title") in
      let* author := lift (Py.getitem resource "author") in
      let* description := lift (Py.getitem resource "description") in
      let* link := lift (Py.getitem resource "link") in
      send_text (message ++ "**Title:** " ++ py_str title ++ nl
                 ++ "**Author:** " ++ py_str author ++ nl
                 ++ "**Description:** " ++ py_str description ++ nl
                 ++ "**Link:** " ++ py_str link) >>
      send_resources EmptyString l'
  end.

Definition on_enter_resources_tips (reply : res pyval) : M unit :=
  set_status WAIT_FOR_ME >>
  (let message := "Here are some resources and tips for you." ++ nl in
   let* result := parse_user_input reply in
   let* resources := lift (Py.getitem result "resources") in
   let* l := lift (Py.iter resources) in
   send_resources message l) >>
  set_status MOVE_FORWARD.

Definition on_enter_help_support : M unit :=
  set_status WAIT_FOR_ME >>
  send_text "How can we assist you today? Please describe your issue." >>
  set_status WAIT_FOR_USER_INPUT.

Definition on_enter_end : M unit :=
  set_status WAIT_FOR_ME >>
  send_text "Thank you for using the MX Teacher Competency Tool. Have a great day!" >>
  set_status MOVE_FORWARD.

(** ** Dispatch

    A state is bound to the method [on_enter_<state>]; [zero] has none.
    The argument is the provider's answer, for the handlers that ask. *)
Definition handler_of (s : State) : option (res pyval -> M unit) :=
  match s with
  | zero => None
  | language_selection => Some (fun _ => on_enter_language_selection)
  | welcome_message_display =>
      Some (fun _ => on_enter_welcome_message_display)
  | collect_name => Some (fun _ => on_enter_collect_name)
  | collect_name_logic => Some (fun _ => on_enter_collect_name_logic)
  | collect_subject => Some (fun _ => on_enter_collect_subject)
  | collect_subject_logic => Some (fun _ => on_enter_collect_subject_logic)
  | collect_grade => Some (fun _ => on_enter_collect_grade)
  | collect_grade_logic => Some (fun _ => on_enter_collect_grade_logic)
  | confirmation => Some (fun _ => on_enter_confirmation)
  | show_question => Some on_enter_show_question
  | question_answer_input => Some (fun _ => on_enter_question_answer_input)
  | answer_input_logic => Some (fun _ => on_enter_answer_input_logic)
  | waiting_message => Some (fun _ => on_enter_waiting_message)
  | calculate_score => Some on_enter_calculate_score
  | thankyou_message => Some (fun _ => on_enter_thankyou_message)
  | home_screen => Some (fun _ => on_enter_home_screen)
  | home_screen_logic => Some (fun _ => on_enter_home_screen_logic)
  | learn_competencies => Some on_enter_learn_competencies
  | assessment => Some (fun _ => on_enter_assessment)
  | resources_tips => Some on_enter_resources_tips
  | help_support => Some (fun _ => on_enter_help_support)
  | end_ => Some (fun _ => on_enter_end)
  end.

(** The states whose handler is written out in this file. *)
Definition own_handler (s : State) : bool :=
  match s with
  | zero | language_selection => false
  | _ => true
  end.

(** ** The run loop *)

Definition set_input (i : option string) (c : Ctx) : Ctx :=
  mkCtx (variables c) (status c) i (sent c) (status_log c).

Record Session : Type := mkSession {
  current_state : State;
  context : Ctx;
  fresh : bool
}.

(** How a call of the run loop ends. *)
Inductive run_result : Type :=
| Paused (s : Session)
| Ended (s : Session)
| ConfigurationError (s : Session)
| Propagated (e : exn) (s : Session)
| StatusNotSet (s : Session)
| OutOfFuel.

(** Modelled from the spec: steps 2 to 5 of the run loop of [AbstractFSM],
    which is outside this file.  The handler of the current state is
    invoked; an exception it raises is not caught; on [MOVE_FORWARD] the
    loop takes the selected [next] edge and goes on without returning, a
    state without any [next] edge ending the loop; on the two waiting
    statuses control returns to the caller.  [provider k] is the answer
    the content provider gives in the [k]-th handler of this call. *)
Fixpoint run (fuel : nat) (provider : nat -> res pyval) (k : nat)
    (s : State) (c : Ctx) : run_result :=
  match fuel with
  | O => OutOfFuel
  | S fuel =>
      match handler_of s with
      | None => ConfigurationError (mkSession s c false)
      | Some h =>
          match h (provider k) c with
          | Raised e c' => Propagated e (mkSession s c' false)
          | Returned _ c' =>
              match status c' with
              | MOVE_FORWARD =>
                  match outgoing s "next" with
                  | [] => Ended (mkSession s c' false)
                  | _ :: _ =>
                      match next_state s (variables c') with
                      | Some s' => run fuel provider (S k) s' c'
                      | None => ConfigurationError (mkSession s c' false)
                      end
                  end
              | WAIT_FOR_USER_INPUT | WAIT_FOR_CALLBACK =>
                  Paused (mkSession s c' false)
              | WAIT_FOR_ME => StatusNotSet (mkSession s c' false)
              end
          end
      end
  end.

(** Modelled from the spec: [advance(session, externalInput)], the entry
    of the run loop of [AbstractFSM].  Unless the session is freshly
    created the input is written to the input buffer; then the handler of
    the current state is invoked and the loop runs, so a session that
    paused in a state enters the same state again on the next call. *)
Definition advance (fuel : nat) (provider : nat -> res pyval)
    (sess : Session) (externalInput : option string) : run_result :=
  let c :=
    if fresh sess then context sess
    else set_input externalInput (context sess) in
  run fuel provider 0 (current_state sess) c.

(** ** Walks of the transition graph

    The flow as the table draws it.  One step of a walk: the handler of the
    entered state returns, the table gives the [next] edge out of it, and
    the destination is entered with whatever the input buffer then holds.
    A walk also leaves a state whose handler asked for input: the reply is
    in the buffer when the [_logic] state behind it is entered. *)
Inductive flow_step : State * Ctx -> State * Ctx -> Prop :=
| flow_step_intro (s s' : State) (h : res pyval -> M unit)
    (reply : res pyval) (c c' : Ctx) (i : option string) :
    handler_of s = Some h ->
    h reply c = Returned tt c' ->
    next_state s (variables c') = Some s' ->
    flow_step (s, c) (s', set_input i c').

(** The entries that a walk meets when it starts from the entry [x]. *)
Inductive reaches (x : State * Ctx) : State * Ctx -> Prop :=
| reaches_refl : reaches x x
| reaches_step (y z : State * Ctx) :
    reaches x y -> flow_step y z -> reaches x z.

(** The entries of the flow: the machine leaves [zero] for
    [language_selection] with the declared defaults in the store. *)
Definition flow_entry (s : State) (c : Ctx) : Prop :=
  exists c0, variables c0 = default_vars /\
             reaches (language_selection, c0) (s, c).

(** How a walk ends. *)
Inductive walk_end : Type :=
| Arrived (c : Ctx)
| HandlerRaised (s : State) (e : exn) (c : Ctx)
| NoEdge (s : State) (c : Ctx)
| NoHandler (s : State)
| Unfinished.

(** The walk from the entry [(s, c)] up to the first entry into [target]:
    the entries made on the way, in order, and how the walk ends.
    [provider k] answers the request of the [k]-th handler of the walk and
    [inputs k] is the input buffer after it. *)
Fixpoint walk_to (target : State) (fuel : nat)
    (provider : nat -> res pyval) (inputs : nat -> option string)
    (k : nat) (s : State) (c : Ctx) : list (State * Ctx) * walk_end :=
  if State_eqb s target then ([], Arrived c)
  else
    match fuel with
    | O => ([], Unfinished)
    | S fuel =>
        match handler_of s with
        | None => ([(s, c)], NoHandler s)
        | Some h =>
            match h (provider k) c with
            | Raised e c' => ([(s, c)], HandlerRaised s e c')
            | Returned _ c' =>
                match next_state s (variables c') with
                | None => ([(s, c)], NoEdge s c')
                | Some s' =>
                    let '(trace, e) :=
                      walk_to target fuel provider inputs (S k) s'
                        (set_input (inputs k) c') in
                    ((s, c) :: trace, e)
                end
            end
        end
    end.

(** A question as [on_enter_show_question] and
    [on_enter_answer_input_logic] read it: a dictionary with a text under
    [question], an identifier equal to itself under [question_id], a
    dictionary of texts under [options] and an entry under [answer]. *)
Definition well_formed_question (q : pyval) : bool :=
  match q with
  | PDict d =>
      match Py.lookup "question" d, Py.lookup "question_id" d,
            Py.lookup "options" d, Py.lookup "answer" d with
      | Some (PStr _), Some id, Some (PDict o), Some _ =>
          Py.eq id id &&
          forallb (fun kv => match snd kv with
                             | PStr _ => true
                             | _ => false
                             end) o
      | _, _, _, _ => false
      end
  | _ => false
  end.

(** The cycle of the quiz. *)
Definition quiz_cycle : list State :=
  [show_question; question_answer_input; answer_input_logic].

Fixpoint cycles (n : nat) : list State :=
  match n with
  | O => []
  | S n => quiz_cycle ++ cycles n
  end.

(** The status assignments of one invocation: what [status_log] gained. *)
Definition statuses_set (before after : Ctx) (l : list Status) : Prop :=
  status_log after = (status_log before ++ l)%list.

(** The option a guard of the home screen asks for. *)
Definition guard_option (g : Guard) : option string :=
  match g with
  | is_learn_competencies_selected => Some "competencies"
  | is_assessment_selected => Some "assessment"
  | is_resources_tips_selected => Some "resources"
  | is_help_support_selected => Some "help"
  | is_send_another_question => None
  end.

(** The four selections of the home screen: option, destination, guard. *)
Definition home_rows : list (string * State * Guard) :=
  [ ("competencies", learn_competencies, is_learn_competencies_selected);
    ("assessment", assessment, is_assessment_selected);
    ("resources", resources_tips, is_resources_tips_selected);
    ("help", help_support, is_help_support_selected) ].

(** [m] returns on every context, with the four quiz variables reset and
    every other variable as it was. *)
Definition resets_quiz (m : M unit) : Prop :=
  forall c, exists c',
    m c = Returned tt c' /\
    question_count (variables c') = 0 /\
    user_input_param (variables c') = PList [] /\
    question_list (variables c') = PNone /\
    current_question_id (variables c') = PNone /\
    name (variables c') = name (variables c) /\
    language (variables c') = language (variables c) /\
    subject (variables c') = subject (variables c) /\
    grade (variables c') = grade (variables c) /\
    competency_domain (variables c') = competency_domain (variables c) /\
    quiz_score (variables c') = quiz_score (variables c) /\
    home_screen_option (variables c') = home_screen_option (variables c) /\
    total_num_question (variables c') = total_num_question (variables c).

(** On return, [m] has assigned [b] to the status exactly once, last. *)
Definition ends_with (b : Status) (m : M unit) : Prop :=
  forall c c', m c = Returned tt c' ->
               status_log c' = (status_log c ++ [b])%list /\ status c' = b.

(** The key a content-producing state reads in the provider's answer. *)
Definition content_key (s : State) : option string :=
  match s with
  | show_question | calculate_score => Some "result"
  | learn_competencies => Some "competencies"
  | resources_tips => Some "resources"
  | _ => None
  end.

(** The provider's answer cannot be read at [key]: the request failed, or
    the answer is not a dictionary, or the dictionary has no such key. *)
Definition unreadable (key : string) (reply : res pyval) : Prop :=
  match reply with
  | Val (PDict d) => Py.lookup key d = None
  | _ => True
  end.

(** The exception that reading [key] in an unreadable answer raises. *)
Definition read_error (reply : res pyval) : exn :=
  match reply with
  | Exc e => e
  | Val (PDict _) => KeyError
  | Val _ => TypeError
  end.

(** The option identifier a decoded input carries when it is a list whose
    first element is a dictionary with the key [option_id]. *)
Definition selection_shape (r : res pyval) : option pyval :=
  match r with
  | Val (PList (PDict d :: _)) => Py.lookup "option_id" d
  | _ => None
  end.

(** The context in which a handler raises before it wrote or sent
    anything: only the first status marker was assigned. *)
Definition marked (a : Status) (c : Ctx) : Ctx :=
  mkCtx (variables c) a (current_input c) (sent c)
    (status_log c ++ [a]).

(** The provider's answer carries the list [qs] under [result]. *)
Definition carries_questions (reply : res pyval) (qs : list pyval) : Prop :=
  exists d, reply = Val (PDict d) /\ Py.lookup "result" d = Some (PList qs).

(** The values of [question_count] at the entries into
    [answer_input_logic] of a walk, in order. *)
Definition answer_counts (trace : list (State * Ctx)) : list Z :=
  map (fun e => question_count (variables (snd e)))
    (filter (fun e => State_eqb (fst e) answer_input_logic) trace).

(** What an entry into a state of the quiz cycle finds in the store. *)
Definition quiz_entry_ok (s : State) (v : Vars) : Prop :=
  match s with
  | show_question =>
      (question_list v = PNone /\ question_count v = 0) \/
      (question_list v <> PNone /\
       0 < question_count v < total_num_question v)
  | question_answer_input =>
      question_list v <> PNone /\
      0 <= question_count v < total_num_question v
  | answer_input_logic =>
      question_list v <> PNone /\
      0 < question_count v <= total_num_question v
  | _ => True
  end.

(** The invariant of the walks: the repeat bound is [N] and the entry finds
    the quiz variables as its state expects. *)
Definition flow_inv (N : Z) (x : State * Ctx) : Prop :=
  total_num_question (variables (snd x)) = N /\
  quiz_entry_ok (fst x) (variables (snd x)).

(** * Properties *)

(** ** Reasoning about handlers *)

Lemma preserves_ret {A B} (f : Ctx -> B) (a : A) : preserves f (ret a).
Proof. intro c. reflexivity. Qed.

Lemma preserves_raise {A B} (f : Ctx -> B) (e : exn) :
  preserves f (@raise A e).
Proof. intro c. reflexivity. Qed.

Lemma preserves_lift {A B} (f : Ctx -> B) (r : res A) :
  preserves f (lift r).
Proof. destruct r; intro c; reflexivity. Qed.

Lemma preserves_bind {A A' B} (f : Ctx -> B) (m : M A) (k : A -> M A') :
  preserves f m -> (forall a, preserves f (k a)) -> preserves f (bind m k).
Proof.
  intros Hm Hk c. unfold bind. specialize (Hm c).
  destruct (m c) as [a c1 | e c1]; simpl in *.
  - rewrite Hk. exact Hm.
  - exact Hm.
Qed.

Ltac preserves_step :=
  match goal with
  | |- preserves _ (bind _ _) => apply preserves_bind; [ | intros ]
  | |- preserves _ (lift _) => apply preserves_lift
  | |- preserves _ (parse_user_input _) => apply preserves_lift
  | |- preserves _ (ret _) => apply preserves_ret
  | |- preserves _ (raise _) => apply preserves_raise
  | |- preserves _ (let _ := _ in _) => cbv zeta
  | |- preserves _ (if ?b then _ else _) => destruct b
  | |- preserves _ (match ?x with _ => _ end) => destruct x
  | |- preserves _ _ => solve [ intro; reflexivity ]
  end.

Ltac preserves_tac := repeat preserves_step.

Lemma bind_returned {A B} (m : M A) (k : A -> M B) c b c' :
  bind m k c = Returned b c' ->
  exists a c1, m c = Returned a c1 /\ k a c1 = Returned b c'.
Proof.
  unfold bind. destruct (m c) as [a c1 | e c1]; intro H.
  - exists a, c1. split; [reflexivity | exact H].
  - discriminate H.
Qed.

Lemma lift_returned {A} (r : res A) c a c' :
  lift r c = Returned a c' -> r = Val a /\ c' = c.
Proof.
  destruct r; simpl; unfold ret, raise; intro H; inversion H; auto.
Qed.

(** ** Strings and guards *)

Lemma py_eq_str (x : pyval) (t : string) :
  Py.eq x (PStr t) = true <-> x = PStr t.
Proof.
  split.
  - destruct x as [ | [ | ] | | | | | s | | ]; simpl; try discriminate.
    intro H. apply String.eqb_eq in H. congruence.
  - intros ->. simpl. apply String.eqb_refl.
Qed.

Lemma home_guard_spec (g : Guard) (id : string) (v : Vars) :
  guard_option g = Some id ->
  (eval_guard g v = true <-> home_screen_option v = PStr id).
Proof.
  destruct g; simpl; intro H; inversion H; subst; apply py_eq_str.
Qed.

(** The edges out of [home_screen_logic], as the table lists them. *)
Lemma outgoing_home_screen_logic :
  outgoing home_screen_logic "next" =
  [ edge_if home_screen_logic learn_competencies
      is_learn_competencies_selected;
    edge_if home_screen_logic assessment is_assessment_selected;
    edge_if home_screen_logic resources_tips is_resources_tips_selected;
    edge_if home_screen_logic help_support is_help_support_selected ].
Proof. reflexivity. Qed.

(** ** The quiz reset *)

Lemma quiz_reset_handlers :
  resets_quiz on_enter_assessment /\ resets_quiz on_enter_thankyou_message.
Proof.
  split; intro c; eexists; (split; [ reflexivity | ]); simpl;
    repeat split; reflexivity.
Qed.

(** C9: on entry to [assessment] the handler sets [question_count] to 0,
    [user_input_param] to the empty list, [question_list] and
    [current_question_id] to [None], and leaves [name], [language],
    [subject], [grade], [competency_domain], [quiz_score],
    [home_screen_option] and [total_num_question] unchanged; the handler of
    [thankyou_message] performs the same reset.  Both return on every
    context. *)
Theorem C9_quiz_variables_reset :
  resets_quiz on_enter_assessment /\ resets_quiz on_enter_thankyou_message.
Proof. exact quiz_reset_handlers. Qed.

(** ** The home screen selection *)

(** C2: at [home_screen_logic] with the selection payload
    [[{"option_id":"assessment"}]] as current input, the handler stores
    ["assessment"] in [home_screen_option] and ends on [MOVE_FORWARD]; the
    [next] transition then selects the edge to [assessment], whose guard is
    the only one of the four that holds. *)
Theorem C2_assessment_selected (c : Ctx) :
  current_input c = Some (selection_payload "assessment") ->
  json_loads (selection_payload "assessment") =
    Val (PList [PDict [("option_id", PStr "assessment")]]) ->
  exists c',
    on_enter_home_screen_logic c = Returned tt c' /\
    home_screen_option (variables c') = PStr "assessment" /\
    status c' = MOVE_FORWARD /\
    select_edge home_screen_logic "next" (variables c') =
      Some (edge_if home_screen_logic assessment is_assessment_selected) /\
    next_state home_screen_logic (variables c') = Some assessment /\
    eval_guard is_assessment_selected (variables c') = true /\
    eval_guard is_learn_competencies_selected (variables c') = false /\
    eval_guard is_resources_tips_selected (variables c') = false /\
    eval_guard is_help_support_selected (variables c') = false.
Proof.
  intros Hin Hload.
  unfold on_enter_home_screen_logic, bind, get_input, set_status. simpl.
  rewrite Hin. simpl. rewrite Hload. simpl.
  eexists. split; [ reflexivity | ]. simpl.
  repeat split; reflexivity.
Qed.

Lemma enabled_home_edges (v : Vars) :
  filter (edge_enabled v) (outgoing home_screen_logic "next") =
  match home_screen_option v with
  | PStr id =>
      if String.eqb id "competencies" then
        [edge_if home_screen_logic learn_competencies
           is_learn_competencies_selected]
      else if String.eqb id "assessment" then
        [edge_if home_screen_logic assessment is_assessment_selected]
      else if String.eqb id "resources" then
        [edge_if home_screen_logic resources_tips is_resources_tips_selected]
      else if String.eqb id "help" then
        [edge_if home_screen_logic help_support is_help_support_selected]
      else []
  | _ => []
  end.
Proof.
  rewrite outgoing_home_screen_logic.
  destruct (home_screen_option v) as [ | [ | ] | | | | | id | | ] eqn:Hopt;
    unfold edge_enabled, edge_if; simpl; rewrite Hopt; simpl;
    try reflexivity.
  destruct (String.eqb id "competencies") eqn:E1.
  { apply String.eqb_eq in E1. subst id. reflexivity. }
  destruct (String.eqb id "assessment") eqn:E2.
  { apply String.eqb_eq in E2. subst id. reflexivity. }
  destruct (String.eqb id "resources") eqn:E3.
  { apply String.eqb_eq in E3. subst id. reflexivity. }
  destruct (String.eqb id "help") eqn:E4; reflexivity.
Qed.

(** C4, amended: on any snapshot of the store at most one of the four edges
    out of [home_screen_logic] is enabled, the selection is the enabled edge
    when there is one, and there is one exactly when [home_screen_option] is
    one of the four option identifiers; each identifier enables its own
    edge.  The guards are functions of the store, so evaluating them again
    gives the same edge. *)
Theorem C4_home_screen_logic_edges (v : Vars) :
  let enabled :=
    filter (edge_enabled v) (outgoing home_screen_logic "next") in
  (List.length enabled <= 1)%nat /\
  select_edge home_screen_logic "next" v = hd_error enabled /\
  (enabled <> [] <->
   In (home_screen_option v) (map (fun r => PStr (fst (fst r))) home_rows)) /\
  Forall (fun r =>
            home_screen_option v = PStr (fst (fst r)) ->
            enabled = [edge_if home_screen_logic (snd (fst r)) (snd r)])
         home_rows.
Proof.
  cbv zeta. unfold select_edge.
  assert (Hfind : forall l, find (edge_enabled v) l
                            = hd_error (filter (edge_enabled v) l)).
  { induction l as [ | t l IH]; simpl; [ reflexivity | ].
    destruct (edge_enabled v t); simpl; [ reflexivity | exact IH ]. }
  rewrite Hfind, enabled_home_edges.
  split; [ | split; [ reflexivity | split ] ].
  - destruct (home_screen_option v); simpl; try lia.
    repeat match goal with
           | |- context [if ?b then _ else _] => destruct b; simpl; try lia
           end.
  - simpl. split.
    + destruct (home_screen_option v) as [ | | | | | | id | | ];
        try (intro H; exfalso; apply H; reflexivity).
      destruct (String.eqb id "competencies") eqn:E1.
      { apply String.eqb_eq in E1. subst. auto. }
      destruct (String.eqb id "assessment") eqn:E2.
      { apply String.eqb_eq in E2. subst. auto. }
      destruct (String.eqb id "resources") eqn:E3.
      { apply String.eqb_eq in E3. subst. auto. }
      destruct (String.eqb id "help") eqn:E4.
      { apply String.eqb_eq in E4. subst. auto 6. }
      intro H; exfalso; apply H; reflexivity.
    + intros [H | [H | [H | [H | []]]]]; rewrite <- H; simpl; discriminate.
  - repeat constructor; simpl; intros ->; reflexivity.
Qed.

(** ** Status assignments *)

Lemma preserves_send_competencies {B} (f : Ctx -> B) :
  (forall body, preserves f (send_text body)) ->
  forall l message, preserves f (send_competencies message l).
Proof.
  intros Hsend l. induction l as [ | x l IH]; intro message; simpl.
  - apply preserves_ret.
  - repeat (apply preserves_bind; [ apply preserves_lift | intros ]).
    apply preserves_bind; [ apply Hsend | intros; apply IH ].
Qed.

Lemma preserves_send_resources {B} (f : Ctx -> B) :
  (forall body, preserves f (send_text body)) ->
  forall l message, preserves f (send_resources message l).
Proof.
  intros Hsend l. induction l as [ | x l IH]; intro message; simpl.
  - apply preserves_ret.
  - repeat (apply preserves_bind; [ apply preserves_lift | intros ]).
    apply preserves_bind; [ apply Hsend | intros; apply IH ].
Qed.

Lemma preserves_make_options {B} (f : Ctx -> B) (l : list (string * pyval)) :
  preserves f (make_options l).
Proof.
  induction l as [ | [k v] l IH]; simpl.
  - apply preserves_ret.
  - apply preserves_bind; [ apply preserves_lift | intros ].
    apply preserves_bind; [ exact IH | intros; apply preserves_ret ].
Qed.

Ltac frame_step :=
  match goal with
  | |- preserves _ (send_competencies _ _) =>
      apply preserves_send_competencies; intros
  | |- preserves _ (send_resources _ _) =>
      apply preserves_send_resources; intros
  | |- preserves _ (make_options _) => apply preserves_make_options
  | |- preserves _ (get_question_from_openai _) =>
      unfold get_question_from_openai
  | |- preserves _ (show_question_locals _) => unfold show_question_locals
  | |- _ => preserves_step
  end.

Ltac frame_tac := repeat frame_step.

Lemma ends_with_set_status (b : Status) : ends_with b (set_status b).
Proof.
  intros c c' H. unfold set_status in H. inversion H; subst; clear H.
  simpl. split; reflexivity.
Qed.

Lemma ends_with_bind {A} (m : M A) (k : A -> M unit) (b : Status) :
  preserves status_log m -> (forall a, ends_with b (k a)) ->
  ends_with b (bind m k).
Proof.
  intros Hm Hk c c' H.
  apply bind_returned in H. destruct H as (a & c1 & H1 & H2).
  specialize (Hm c). rewrite H1 in Hm. simpl in Hm.
  apply Hk in H2. rewrite Hm in H2. exact H2.
Qed.

Lemma bracket_statuses (a b : Status) (rest : M unit) :
  ends_with b rest ->
  forall c c', (set_status a >> rest) c = Returned tt c' ->
               statuses_set c c' [a; b] /\ status c' = b.
Proof.
  intros Hrest c c' H. unfold bind, set_status in H. simpl in H.
  apply Hrest in H. simpl in H. destruct H as [Hlog Hst].
  split; [ | exact Hst ].
  unfold statuses_set. rewrite Hlog, <- app_assoc. reflexivity.
Qed.

Ltac ends_with_tac :=
  repeat (apply ends_with_bind; [ frame_tac | intros ]);
  apply ends_with_set_status.

(** Every handler written out in this file assigns the status twice when
    it returns: a first marker, then the status it ends on. *)
Lemma handler_statuses (s : State) (h : res pyval -> M unit)
    (reply : res pyval) (c c' : Ctx) :
  own_handler s = true ->
  handler_of s = Some h ->
  h reply c = Returned tt c' ->
  exists b,
    statuses_set c c'
      [if State_eqb s show_question then WAIT_FOR_CALLBACK else WAIT_FOR_ME;
       b] /\
    status c' = b /\ terminal b = true.
Proof.
  intros Hown Hh Hrun.
  destruct s; try discriminate Hown; simpl in Hh; inversion Hh; subst h;
    clear Hh Hown;
    cbv beta delta
      [on_enter_welcome_message_display on_enter_collect_name
       on_enter_collect_name_logic on_enter_collect_subject
       on_enter_collect_subject_logic on_enter_collect_grade
       on_enter_collect_grade_logic on_enter_confirmation
       on_enter_show_question on_enter_question_answer_input
       on_enter_answer_input_logic on_enter_waiting_message
       on_enter_calculate_score on_enter_thankyou_message
       on_enter_home_screen on_enter_home_screen_logic
       on_enter_learn_competencies on_enter_assessment
       on_enter_resources_tips on_enter_help_support on_enter_end] in Hrun;
    match type of Hrun with
    | ?m _ = _ =>
        match m with
        | bind (set_status ?a) (fun _ => ?rest) =>
            match rest with
            | context [set_status ?b] =>
                match b with
                | WAIT_FOR_ME => fail 1
                | _ =>
                    exists b;
                    assert (E : ends_with b rest) by ends_with_tac;
                    destruct (bracket_statuses a b rest E c c' Hrun)
                      as [H1 H2];
                    split; [ exact H1 | split; [ exact H2 | reflexivity ] ]
                end
            end
        end
    end.
Qed.

(** The helper [standard_ask_again] and the handler of the state
    [preparing_question], which the table does not list, follow the same
    pattern. *)
Lemma helper_statuses (c : Ctx) (message : option string) :
  (exists c', standard_ask_again message c = Returned tt c' /\
              statuses_set c c' [WAIT_FOR_ME; MOVE_FORWARD]) /\
  (exists c', on_enter_preparing_question c = Returned tt c' /\
              statuses_set c c' [WAIT_FOR_ME; MOVE_FORWARD]).
Proof.
  split; eexists;
    (split; [ cbv [standard_ask_again on_enter_preparing_question bind
                   set_status send_text send_message];
              reflexivity | ]);
    unfold statuses_set; simpl; rewrite <- app_assoc; reflexivity.
Qed.

(** C3, as the code has it: a handler that returns ends on one of the three
    terminal statuses.  Every handler but one assigns a single terminal
    status on the way; [on_enter_show_question] assigns two, since its
    first marker is [WAIT_FOR_CALLBACK] where the others use
    [WAIT_FOR_ME]. *)
Theorem C3_terminal_statuses_per_invocation (s : State)
    (h : res pyval -> M unit) (reply : res pyval) (c c' : Ctx) :
  own_handler s = true ->
  handler_of s = Some h ->
  h reply c = Returned tt c' ->
  exists l,
    statuses_set c c' l /\
    terminal (status c') = true /\
    List.length (filter terminal l) =
      (if State_eqb s show_question then 2 else 1)%nat.
Proof.
  intros Hown Hh Hrun.
  destruct (handler_statuses s h reply c c' Hown Hh Hrun)
    as (b & Hset & Hst & Hterm).
  eexists. split; [ exact Hset | ]. rewrite Hst. split; [ exact Hterm | ].
  destruct (State_eqb s show_question); simpl; rewrite Hterm; reflexivity.
Qed.

(** ** Errors inside a handler *)

Lemma lift_getitem_unreadable (key : string) (reply : res pyval) (c : Ctx)
    {A} (k : pyval -> M A) :
  unreadable key reply ->
  (let* result := parse_user_input reply in
   let* x := lift (Py.getitem result key) in k x) c
  = Raised (read_error reply) c.
Proof.
  intro H. unfold bind, parse_user_input.
  destruct reply as [v | e]; simpl; [ | reflexivity ].
  destruct v; simpl; try reflexivity.
  simpl in H. unfold Py.getitem. rewrite H. reflexivity.
Qed.

(** C6, amended: when the provider's answer cannot be read at the key the
    state expects, the request failed, the answer is not a dictionary or the
    key is missing, the handler of each content-producing state raises; no
    handler catches, so the run loop hands the exception to its caller.  The
    session stays in the same state, the variable store is as before the
    call and no message was sent; the status is the handler's first
    marker. *)
Theorem C6_unreadable_reply_propagates (s : State) (key : string)
    (reply : res pyval) (c : Ctx) :
  content_key s = Some key ->
  unreadable key reply ->
  (s = show_question -> question_list (variables c) = PNone) ->
  exists h c1,
    handler_of s = Some h /\
    h reply c = Raised (read_error reply) c1 /\
    c1 = marked (if State_eqb s show_question then WAIT_FOR_CALLBACK
                 else WAIT_FOR_ME) c /\
    forall fuel provider,
      provider 0%nat = reply ->
      run (S fuel) provider 0 s c
      = Propagated (read_error reply) (mkSession s c1 false).
Proof.
  intros Hkey Hbad Hq.
  destruct s; try discriminate Hkey; simpl in Hkey; inversion Hkey; subst key;
    clear Hkey; simpl handler_of; eexists; eexists;
    (split; [ reflexivity | ]);
    match goal with
    | |- ?h reply c = Raised _ ?c1 /\ _ =>
        assert (E : h reply c = Raised (read_error reply) c1);
          [ try specialize (Hq eq_refl);
            unfold on_enter_show_question, show_question_locals,
              get_question_from_openai, on_enter_calculate_score,
              on_enter_learn_competencies, on_enter_resources_tips,
              parse_user_input, bind, set_status, get_vars, marked in *;
            simpl; try rewrite Hq; simpl;
            destruct reply as [[ | | | | | | | | d] | e]; simpl;
            try reflexivity;
            simpl in Hbad; rewrite Hbad; reflexivity
          | split; [ exact E | split; [ reflexivity | ] ];
            intros fuel provider Hp; simpl; rewrite Hp, E; reflexivity ]
    end.
Qed.

(** The two ways [on_enter_home_screen_logic] can go, by the shape of the
    decoded input. *)
Lemma home_screen_logic_cases (c : Ctx) :
  match selection_shape (loads_input (current_input c)) with
  | Some id =>
      exists c',
        on_enter_home_screen_logic c = Returned tt c' /\
        variables c' = with_home_screen_option id (variables c) /\
        status c' = MOVE_FORWARD /\
        sent c' = sent c
  | None =>
      exists e,
        on_enter_home_screen_logic c = Raised e (marked WAIT_FOR_ME c) /\
        forall fuel provider,
          run (S fuel) provider 0 home_screen_logic c
          = Propagated e
              (mkSession home_screen_logic (marked WAIT_FOR_ME c) false)
  end.
Proof.
  assert (Hrun : forall e,
             on_enter_home_screen_logic c = Raised e (marked WAIT_FOR_ME c) ->
             exists e',
               on_enter_home_screen_logic c
               = Raised e' (marked WAIT_FOR_ME c) /\
               forall fuel provider,
                 run (S fuel) provider 0 home_screen_logic c
                 = Propagated e'
                     (mkSession home_screen_logic (marked WAIT_FOR_ME c)
                        false)).
  { intros e E. exists e. split; [ exact E | ].
    intros fuel provider. simpl. rewrite E. reflexivity. }
  unfold selection_shape.
  destruct (loads_input (current_input c)) as [v | e] eqn:Hload.
  - destruct v as [ | b | z | q | | n | s | l | d];
      try (apply (Hrun TypeError);
           unfold on_enter_home_screen_logic, bind, set_status, get_input;
           simpl; rewrite Hload; reflexivity).
    + (* a decoded string *)
      destruct s as [ | a s].
      * apply (Hrun IndexError).
        unfold on_enter_home_screen_logic, bind, set_status, get_input.
        simpl. rewrite Hload. reflexivity.
      * apply (Hrun TypeError).
        unfold on_enter_home_screen_logic, bind, set_status, get_input.
        simpl. rewrite Hload. unfold lift, Py.getindex, Py.chars. simpl.
        reflexivity.
    + (* a decoded list *)
      destruct l as [ | first l].
      * apply (Hrun IndexError).
        unfold on_enter_home_screen_logic, bind, set_status, get_input.
        simpl. rewrite Hload. reflexivity.
      * assert (Hfirst : Py.getindex (PList (first :: l)) 0 = Val first)
          by reflexivity.
        destruct first as [ | b | z | q | | n | s | l' | d];
          try (apply (Hrun TypeError);
               unfold on_enter_home_screen_logic, bind, set_status,
                 get_input;
               simpl lift; cbv beta iota; simpl current_input;
               rewrite Hload; unfold lift at 1; cbv beta iota;
               unfold ret at 1; rewrite Hfirst; reflexivity).
        destruct (Py.lookup "option_id" d) as [id | ] eqn:Hid.
        -- eexists.
           unfold on_enter_home_screen_logic, bind, set_status, get_input.
           simpl current_input. rewrite Hload. unfold lift at 1.
           unfold ret at 1. rewrite Hfirst. unfold lift at 1, ret at 1.
           unfold Py.getitem. rewrite Hid. simpl.
           repeat split; reflexivity.
        -- apply (Hrun KeyError).
           unfold on_enter_home_screen_logic, bind, set_status, get_input.
           simpl current_input. rewrite Hload. unfold lift at 1.
           unfold ret at 1. rewrite Hfirst. unfold lift at 1, ret at 1.
           unfold Py.getitem. rewrite Hid. reflexivity.
    + (* a decoded dictionary *)
      apply (Hrun KeyError).
      unfold on_enter_home_screen_logic, bind, set_status, get_input.
      simpl. rewrite Hload. reflexivity.
  - apply (Hrun e).
    unfold on_enter_home_screen_logic, bind, set_status, get_input.
    simpl. rewrite Hload. reflexivity.
Qed.

(** C8, amended: [on_enter_home_screen_logic] returns exactly when the
    decoded input is a list whose first element is a dictionary with the key
    [option_id], and then it stores that identifier.  On any other input,
    free text or an empty list among them, it raises; nothing catches the
    exception, so the run loop hands it to its caller.  The session stays in
    [home_screen_logic] with the variable store untouched, and no message,
    hence no new prompt, was sent. *)
Theorem C8_home_screen_logic_input (c : Ctx) :
  match selection_shape (loads_input (current_input c)) with
  | Some id =>
      exists c',
        on_enter_home_screen_logic c = Returned tt c' /\
        variables c' = with_home_screen_option id (variables c) /\
        status c' = MOVE_FORWARD /\
        sent c' = sent c
  | None =>
      exists e,
        on_enter_home_screen_logic c = Raised e (marked WAIT_FOR_ME c) /\
        forall fuel provider,
          run (S fuel) provider 0 home_screen_logic c
          = Propagated e
              (mkSession home_screen_logic (marked WAIT_FOR_ME c) false)
  end.
Proof. exact (home_screen_logic_cases c). Qed.

(** ** The run loop on the name steps *)


(** ** States that end on [MOVE_FORWARD] *)


(** ** Walks *)

Lemma State_eqb_eq (a b : State) : State_eqb a b = true <-> a = b.
Proof.
  split.
  - destruct a, b; simpl; intro H; try discriminate H; reflexivity.
  - intros ->. destruct b; reflexivity.
Qed.

Lemma reaches_trans (x y z : State * Ctx) :
  reaches x y -> reaches y z -> reaches x z.
Proof.
  intros Hxy Hyz. induction Hyz as [ | u w Hyu IH Hstep].
  - exact Hxy.
  - eapply reaches_step; [ exact IH | exact Hstep ].
Qed.

Lemma reaches_first (x y z : State * Ctx) :
  flow_step x y -> reaches y z -> reaches x z.
Proof.
  intros Hstep Hyz. eapply reaches_trans; [ | exact Hyz ].
  eapply reaches_step; [ apply reaches_refl | exact Hstep ].
Qed.

(** A walk that arrives is a walk of the graph. *)
Lemma walk_to_reaches (target : State) (provider : nat -> res pyval)
    (inputs : nat -> option string) (fuel : nat) :
  forall k s c trace c',
    walk_to target fuel provider inputs k s c = (trace, Arrived c') ->
    reaches (s, c) (target, c').
Proof.
  induction fuel as [ | fuel IH]; intros k s c trace c' H; simpl in H.
  - destruct (State_eqb s target) eqn:E; [ | discriminate H ].
    apply State_eqb_eq in E. inversion H; subst. apply reaches_refl.
  - destruct (State_eqb s target) eqn:E.
    { apply State_eqb_eq in E. inversion H; subst. apply reaches_refl. }
    destruct (handler_of s) as [h | ] eqn:Hh; [ | discriminate H ].
    destruct (h (provider k) c) as [[] c1 | e c1] eqn:Hrun;
      [ | discriminate H ].
    destruct (next_state s (variables c1)) as [s' | ] eqn:Hnext;
      [ | discriminate H ].
    destruct (walk_to target fuel provider inputs (S k) s'
                (set_input (inputs k) c1)) as [trace' e'] eqn:Hw.
    inversion H; subst.
    eapply reaches_first.
    + eapply flow_step_intro; eassumption.
    + eapply IH. exact Hw.
Qed.

(** ** The quiz loop *)

Lemma getindex_list (l : list pyval) (j : nat) (q : pyval) :
  nth_error l j = Some q -> Py.getindex (PList l) (Z.of_nat j) = Val q.
Proof.
  intro H. unfold Py.getindex.
  assert (Hlt : (j < List.length l)%nat).
  { apply nth_error_Some. rewrite H. discriminate. }
  replace (Z.of_nat j <? 0) with false by (symmetry; apply Z.ltb_ge; lia).
  replace (Z.of_nat j <? 0) with false by (symmetry; apply Z.ltb_ge; lia).
  replace (Z.of_nat (List.length l) <=? Z.of_nat j) with false
    by (symmetry; apply Z.leb_gt; lia).
  simpl. rewrite Nat2Z.id, H. reflexivity.
Qed.

Lemma well_formed_question_inv (q : pyval) :
  well_formed_question q = true ->
  exists d text id o answer,
    q = PDict d /\
    Py.lookup "question" d = Some (PStr text) /\
    Py.lookup "question_id" d = Some id /\
    Py.lookup "options" d = Some (PDict o) /\
    Py.lookup "answer" d = Some answer /\
    Py.eq id id = true /\
    forallb (fun kv => match snd kv with PStr _ => true | _ => false end) o
    = true.
Proof.
  unfold well_formed_question.
  destruct q as [ | | | | | | | | d]; try discriminate.
  destruct (Py.lookup "question" d) as [[ | | | | | | text | | ] | ] eqn:E1;
    try discriminate.
  destruct (Py.lookup "question_id" d) as [id | ] eqn:E2; try discriminate.
  destruct (Py.lookup "options" d) as [[ | | | | | | | | o] | ] eqn:E3;
    try discriminate.
  destruct (Py.lookup "answer" d) as [answer | ] eqn:E4; try discriminate.
  intro H. apply andb_prop in H. destruct H as [H1 H2].
  exists d, text, id, o, answer. repeat split; try assumption; reflexivity.
Qed.

Lemma make_options_texts (o : list (string * pyval)) :
  forallb (fun kv => match snd kv with PStr _ => true | _ => false end) o
  = true ->
  exists l, forall c, make_options o c = Returned l c.
Proof.
  induction o as [ | [k v] o IH]; simpl; intro H.
  - exists []. reflexivity.
  - apply andb_prop in H. destruct H as [Hv Ho].
    destruct v; try discriminate Hv.
    destruct (IH Ho) as (l & Hl).
    eexists. intro c. unfold bind. rewrite validate_str_text. simpl.
    rewrite Hl. reflexivity.
Qed.

Arguments Py.getindex : simpl never.
Arguments Py.str_int : simpl never.

Lemma show_question_returns (reply : res pyval) (c : Ctx)
    (qs : list pyval) (j : nat) (q : pyval) :
  forallb well_formed_question qs = true ->
  nth_error qs j = Some q ->
  question_count (variables c) = Z.of_nat j ->
  (j = 0%nat /\ question_list (variables c) = PNone /\
   carries_questions reply qs) \/
  (j <> 0%nat /\ question_list (variables c) = PList qs) ->
  exists c' d id,
    q = PDict d /\
    Py.lookup "question_id" d = Some id /\
    on_enter_show_question reply c = Returned tt c' /\
    question_list (variables c') = PList qs /\
    current_question_id (variables c') = id /\
    question_count (variables c') = question_count (variables c) /\
    total_num_question (variables c') = total_num_question (variables c) /\
    user_input_param (variables c') = user_input_param (variables c).
Proof.
  intros Hwf Hnth Hcount Hcase.
  assert (Hq : well_formed_question q = true).
  { rewrite forallb_forall in Hwf. apply Hwf.
    eapply nth_error_In. exact Hnth. }
  destruct (well_formed_question_inv q Hq)
    as (d & text & id & o & answer & -> & Htext & Hid & Hopt & _ & _ & Ho).
  destruct (make_options_texts o Ho) as (l & Hl).
  destruct Hcase as [(-> & Hnone & dr & -> & Hres) | (Hj & Hlist)].
  - eexists. exists d, id. split; [ reflexivity | ]. split; [ exact Hid | ].
    unfold on_enter_show_question, show_question_locals,
      get_question_from_openai, parse_user_input, bind, set_status,
      get_vars, setattr, send_message.
    simpl. rewrite Hnone. simpl. rewrite Hres. simpl.
    change 0 with (Z.of_nat 0). rewrite (getindex_list qs 0 _ Hnth). simpl.
    rewrite Htext, Hid, Hopt. simpl. rewrite Hcount. simpl.
    rewrite Hl. split; [ reflexivity | ]. simpl.
    repeat split; try reflexivity; simpl in *; lia.
  - assert (Hz : (Z.of_nat j =? 0) = false) by (apply Z.eqb_neq; lia).
    eexists. exists d, id. split; [ reflexivity | ]. split; [ exact Hid | ].
    unfold on_enter_show_question, show_question_locals,
      get_question_from_openai, parse_user_input, bind, set_status,
      get_vars, setattr, send_message.
    simpl. rewrite Hlist. simpl. rewrite Hcount, Hz. simpl.
    rewrite Hlist, (getindex_list qs j _ Hnth). simpl.
    rewrite Htext, Hid, Hopt. simpl.
    rewrite Hl. split; [ reflexivity | ]. simpl.
    repeat split; try reflexivity; simpl in *; auto.
Qed.

Lemma questions_with_id_ok (qs : list pyval) (id : pyval) :
  forallb well_formed_question qs = true ->
  exists l,
    questions_with_id qs id = Val l /\
    forallb well_formed_question l = true /\
    (forall d, In (PDict d) qs -> Py.lookup "question_id" d = Some id ->
               Py.eq id id = true -> l <> []).
Proof.
  induction qs as [ | q qs IH]; simpl; intro H.
  - exists []. split; [ reflexivity | ]. split; [ reflexivity | ].
    intros d [].
  - apply andb_prop in H. destruct H as [Hq Hqs].
    destruct (IH Hqs) as (l & Hl & Hwf & Hne).
    destruct (well_formed_question_inv q Hq)
      as (d & text & x & o & answer & -> & _ & Hx & _).
    unfold Py.getitem. rewrite Hx. simpl. rewrite Hl. simpl.
    eexists. split; [ reflexivity | ].
    destruct (Py.eq x id) eqn:Heq.
    + split.
      * change (well_formed_question (PDict d)
                && forallb well_formed_question l = true).
        rewrite Hq, Hwf. reflexivity.
      * intros; discriminate.
    + split; [ exact Hwf | ].
      intros d' [Hin | Hin] Hd' Hrefl.
      * inversion Hin; subst d'. rewrite Hx in Hd'. inversion Hd'; subst x.
        rewrite Hrefl in Heq. discriminate Heq.
      * eapply Hne; eassumption.
Qed.

Lemma answer_input_logic_returns (c : Ctx) (qs u : list pyval)
    (d : list (string * pyval)) :
  forallb well_formed_question qs = true ->
  question_list (variables c) = PList qs ->
  In (PDict d) qs ->
  Py.lookup "question_id" d = Some (current_question_id (variables c)) ->
  user_input_param (variables c) = PList u ->
  exists c' entry,
    on_enter_answer_input_logic c = Returned tt c' /\
    user_input_param (variables c') = PList (u ++ [entry]) /\
    question_list (variables c') = PList qs /\
    question_count (variables c') = question_count (variables c) /\
    total_num_question (variables c') = total_num_question (variables c).
Proof.
  intros Hwf Hlist Hin Hid Hu.
  assert (Hq : well_formed_question (PDict d) = true).
  { rewrite forallb_forall in Hwf. apply Hwf. exact Hin. }
  destruct (well_formed_question_inv _ Hq)
    as (d0 & text & id & o & answer & E & _ & Hid' & _ & _ & Hrefl & _).
  inversion E; subst d0; clear E.
  rewrite Hid in Hid'. inversion Hid' as [Hcur]. rewrite <- Hcur in Hrefl.
  destruct (questions_with_id_ok qs (current_question_id (variables c)) Hwf)
    as (l & Hl & Hlwf & Hne).
  specialize (Hne d Hin Hid Hrefl).
  destruct l as [ | first l]; [ congruence | ].
  simpl in Hlwf. apply andb_prop in Hlwf. destruct Hlwf as [Hfirst _].
  destruct (well_formed_question_inv _ Hfirst)
    as (d1 & text1 & id1 & o1 & answer1 & -> & Ht1 & _ & Ho1 & Ha1 & _).
  eexists. eexists.
  unfold on_enter_answer_input_logic, bind, set_status, get_vars, get_input,
    setattr.
  simpl. rewrite Hlist. simpl. rewrite Hl. simpl.
  rewrite Ht1, Ho1, Ha1. simpl. rewrite Hu. simpl.
  split; [ reflexivity | ]. simpl. repeat split; auto.
Qed.

Lemma question_answer_input_returns (c : Ctx) :
  exists c',
    on_enter_question_answer_input c = Returned tt c' /\
    question_count (variables c') = question_count (variables c) + 1 /\
    question_list (variables c') = question_list (variables c) /\
    total_num_question (variables c') = total_num_question (variables c) /\
    current_question_id (variables c') = current_question_id (variables c) /\
    user_input_param (variables c') = user_input_param (variables c).
Proof.
  eexists. split; [ reflexivity | ]. simpl. repeat split; reflexivity.
Qed.

Lemma send_another_question_spec (v : Vars) :
  eval_guard is_send_another_question v = false <->
  question_count v = total_num_question v.
Proof.
  simpl. destruct (total_num_question v =? question_count v) eqn:E.
  - apply Z.eqb_eq in E. split; intro; [ lia | reflexivity ].
  - apply Z.eqb_neq in E. split; intro; [ discriminate | lia ].
Qed.

Lemma next_state_answer_input_logic (v : Vars) :
  next_state answer_input_logic v =
  Some (if total_num_question v =? question_count v then waiting_message
        else show_question).
Proof.
  unfold next_state, select_edge. simpl.
  unfold edge_enabled. simpl.
  destruct (total_num_question v =? question_count v); reflexivity.
Qed.

Lemma walk_to_step (target : State) (provider : nat -> res pyval)
    (inputs : nat -> option string) (fuel k : nat) (s s' : State)
    (h : res pyval -> M unit) (c c1 : Ctx) :
  State_eqb s target = false ->
  handler_of s = Some h ->
  h (provider k) c = Returned tt c1 ->
  next_state s (variables c1) = Some s' ->
  walk_to target (S fuel) provider inputs k s c =
  ((s, c) :: fst (walk_to target fuel provider inputs (S k) s'
                    (set_input (inputs k) c1)),
   snd (walk_to target fuel provider inputs (S k) s'
          (set_input (inputs k) c1))).
Proof.
  intros Hs Hh Hrun Hnext. simpl. rewrite Hs, Hh, Hrun, Hnext.
  destruct (walk_to target fuel provider inputs (S k) s'
              (set_input (inputs k) c1)); reflexivity.
Qed.

(** The passes that remain when the walk enters [show_question] with
    [question_count = j] and [total_num_question = j + S m]. *)
Lemma quiz_loop_from (provider : nat -> res pyval)
    (inputs : nat -> option string) (qs : list pyval) (m : nat) :
  forallb well_formed_question qs = true ->
  forall (j k : nat) (c : Ctx) (fuel : nat),
    (j + S m <= List.length qs)%nat ->
    total_num_question (variables c) = Z.of_nat (j + S m) ->
    question_count (variables c) = Z.of_nat j ->
    (j = 0%nat /\ question_list (variables c) = PNone /\
     carries_questions (provider k) qs) \/
    (j <> 0%nat /\ question_list (variables c) = PList qs) ->
    (exists u, user_input_param (variables c) = PList u) ->
    (3 * S m <= fuel)%nat ->
    exists trace c',
      walk_to waiting_message fuel provider inputs k show_question c
      = (trace, Arrived c') /\
      map fst trace = cycles (S m) /\
      answer_counts trace = map Z.of_nat (seq (S j) (S m)) /\
      question_count (variables c') = Z.of_nat (j + S m).
Proof.
  intro Hwf.
  induction m as [ | m IH]; intros j k c fuel Hlen Htot Hcnt Hcase Hu Hfuel.
  all: destruct fuel as [ | [ | [ | fuel]]]; try lia.
  all: assert (Hj : (j < List.length qs)%nat) by lia.
  all: destruct (nth_error qs j) as [q | ] eqn:Hnth;
    [ | apply nth_error_None in Hnth; lia ].
  all: destruct (show_question_returns (provider k) c qs j q Hwf Hnth Hcnt
                   Hcase)
    as (c1 & d & id & -> & Hid & Hrun1 & Hl1 & Hcur1 & Hc1 & Ht1 & Hu1).
  all: destruct (question_answer_input_returns (set_input (inputs k) c1))
    as (c2 & Hrun2 & Hc2 & Hl2 & Ht2 & Hcur2 & Hu2).
  all: simpl variables in Hc2, Hl2, Ht2, Hcur2, Hu2.
  all: destruct Hu as (u & Hu).
  all: destruct (answer_input_logic_returns
                   (set_input (inputs (S k)) c2) qs u d Hwf)
    as (c3 & entry & Hrun3 & Hu3 & Hl3 & Hc3 & Ht3);
    [ simpl; congruence
    | eapply nth_error_In; exact Hnth
    | simpl; congruence
    | simpl; congruence
    | ].
  all: simpl variables in Hc3, Ht3.
  all: pose proof (next_state_answer_input_logic (variables c3)) as Hnext.
  all: rewrite Ht3, Hc3, Ht2, Hc2, Ht1, Hc1, Htot, Hcnt in Hnext.
  - (* the last pass *)
    replace (Z.of_nat (j + 1) =? Z.of_nat j + 1) with true in Hnext
      by (symmetry; apply Z.eqb_eq; lia).
    rewrite (walk_to_step waiting_message provider inputs _ _ show_question question_answer_input
               _ c c1 eq_refl eq_refl Hrun1 eq_refl).
    rewrite (walk_to_step waiting_message provider inputs _ _ question_answer_input answer_input_logic
               _ _ c2 eq_refl eq_refl Hrun2 eq_refl).
    rewrite (walk_to_step waiting_message provider inputs _ _ answer_input_logic waiting_message
               _ _ c3 eq_refl eq_refl Hrun3 Hnext).
    assert (Hend : forall f x,
               walk_to waiting_message f provider inputs (S (S (S k)))
                 waiting_message x = ([], Arrived x)).
    { intros f x. destruct f; reflexivity. }
    rewrite !Hend. simpl fst. simpl snd.
    eexists. eexists. split; [ reflexivity | ].
    split; [ reflexivity | ].
    split.
    + unfold answer_counts. simpl. rewrite Hc2, Hc1, Hcnt.
      f_equal. lia.
    + simpl. rewrite Hc3, Hc2, Hc1, Hcnt. lia.
  - (* a pass followed by others *)
    replace (Z.of_nat (j + S (S m)) =? Z.of_nat j + 1) with false in Hnext
      by (symmetry; apply Z.eqb_neq; lia).
    rewrite (walk_to_step waiting_message provider inputs _ _ show_question question_answer_input
               _ c c1 eq_refl eq_refl Hrun1 eq_refl).
    rewrite (walk_to_step waiting_message provider inputs _ _ question_answer_input answer_input_logic
               _ _ c2 eq_refl eq_refl Hrun2 eq_refl).
    rewrite (walk_to_step waiting_message provider inputs _ _ answer_input_logic show_question
               _ _ c3 eq_refl eq_refl Hrun3 Hnext).
    destruct (IH (S j) (S (S (S k))) (set_input (inputs (S (S k))) c3) fuel)
      as (trace & c' & Hwalk & Hstates & Hcounts & Hfinal).
    + lia.
    + simpl. rewrite Ht3, Ht2, Ht1, Htot. f_equal. lia.
    + simpl. rewrite Hc3, Hc2, Hc1, Hcnt. lia.
    + right. split; [ discriminate | ]. simpl. exact Hl3.
    + eexists. simpl. exact Hu3.
    + lia.
    + rewrite Hwalk. simpl fst. simpl snd.
      eexists. eexists. split; [ reflexivity | ].
      split; [ simpl; rewrite Hstates; reflexivity | ].
      split.
      * unfold answer_counts in *. simpl.
        rewrite Hcounts, Hc2, Hc1, Hcnt. simpl. f_equal. lia.
      * rewrite Hfinal. f_equal. lia.
Qed.

(** C1, amended: let the walk start at [assessment] with a repeat bound
    [N = total_num_question] of at least 1, and let the provider answer the
    first [show_question] with a list of at least [N] well-formed questions.
    Every pass through [question_answer_input] adds exactly 1 to
    [question_count]; the guard [is_send_another_question] is false exactly
    when [question_count] equals [N]; the entries into [answer_input_logic]
    see [question_count] go through 1, 2, ..., [N], never beyond; and the
    walk makes exactly [N] rounds of [show_question],
    [question_answer_input], [answer_input_logic] before it arrives at
    [waiting_message], fuel for [3 N + 1] handlers being enough. *)
Theorem C1_quiz_loop_runs_N_times (c : Ctx) (provider : nat -> res pyval)
    (inputs : nat -> option string) (qs : list pyval) (fuel : nat) :
  1 <= total_num_question (variables c) ->
  carries_questions (provider 1%nat) qs ->
  forallb well_formed_question qs = true ->
  total_num_question (variables c) <= Z.of_nat (List.length qs) ->
  (3 * Z.to_nat (total_num_question (variables c)) + 1 <= fuel)%nat ->
  (forall x, exists x',
      on_enter_question_answer_input x = Returned tt x' /\
      question_count (variables x') = question_count (variables x) + 1) /\
  (forall v, eval_guard is_send_another_question v = false <->
             question_count v = total_num_question v) /\
  exists trace c',
    walk_to waiting_message fuel provider inputs 0 assessment c
    = (trace, Arrived c') /\
    map fst trace
    = assessment :: cycles (Z.to_nat (total_num_question (variables c))) /\
    answer_counts trace
    = map Z.of_nat (seq 1 (Z.to_nat (total_num_question (variables c)))) /\
    Forall (fun n => 1 <= n <= total_num_question (variables c))
      (answer_counts trace) /\
    question_count (variables c') = total_num_question (variables c).
Proof.
  intros HN Hreply Hwf Hlen Hfuel.
  split.
  { intro x. destruct (question_answer_input_returns x) as (x' & H1 & H2 & _).
    exists x'. split; assumption. }
  split; [ exact send_another_question_spec | ].
  destruct quiz_reset_handlers as [Hreset _].
  destruct (Hreset c)
    as (c0 & Hrun0 & Hcnt0 & Hu0 & Hl0 & _ & _ & _ & _ & _ & _ & _ & _ & Ht0).
  remember (Z.to_nat (total_num_question (variables c))) as n eqn:Hn.
  destruct n as [ | m]; [ lia | ].
  destruct fuel as [ | fuel]; [ lia | ].
  rewrite (walk_to_step waiting_message provider inputs fuel 0 assessment
             show_question (fun _ => on_enter_assessment) c c0
             eq_refl eq_refl Hrun0 eq_refl).
  destruct (quiz_loop_from provider inputs qs m Hwf 0%nat 1%nat
              (set_input (inputs 0%nat) c0) fuel)
    as (trace & c' & Hwalk & Hstates & Hcounts & Hfinal).
  - simpl. lia.
  - simpl. rewrite Ht0. lia.
  - simpl. exact Hcnt0.
  - left. split; [ reflexivity | ]. split; [ exact Hl0 | exact Hreply ].
  - exists []. exact Hu0.
  - lia.
  - rewrite Hwalk. simpl fst. simpl snd.
    exists ((assessment, c) :: trace), c'.
    split; [ reflexivity | ].
    split; [ simpl; rewrite Hstates; reflexivity | ].
    assert (Hac : answer_counts ((assessment, c) :: trace)
                  = map Z.of_nat (seq 1 (S m))).
    { unfold answer_counts in *. simpl filter. exact Hcounts. }
    split; [ exact Hac | ].
    split.
    + rewrite Hac. apply Forall_forall. intros z Hz.
      apply in_map_iff in Hz. destruct Hz as (i & <- & Hi).
      apply in_seq in Hi. lia.
    + rewrite Hfinal. lia.
Qed.

(** ** Entries into [show_question] *)

Lemma preserves_returned {A B} (f : Ctx -> B) (m : M A) c a c' :
  preserves f m -> m c = Returned a c' -> f c' = f c.
Proof. intros Hm H. specialize (Hm c). rewrite H in Hm. exact Hm. Qed.

Lemma get_vars_returned c v c' :
  get_vars c = Returned v c' -> v = variables c /\ c' = c.
Proof. unfold get_vars. intro H. inversion H. auto. Qed.

Lemma ret_returned {A} (a b : A) c c' :
  ret a c = Returned b c' -> b = a /\ c' = c.
Proof. unfold ret. intro H. inversion H. auto. Qed.

(** Opens [bind m k c = Returned _ _] in [H]: [a] and [c1] name what [m]
    returned, [H1] how; a [lift] or a [get_vars] in front is resolved. *)
Tactic Notation "inv_bind" hyp(H) "as" ident(a) ident(c1) ident(H1) :=
  apply bind_returned in H; destruct H as (a & c1 & H1 & H);
  first [ apply lift_returned in H1; destruct H1 as [H1 ->]
        | apply get_vars_returned in H1; destruct H1 as [-> ->]
        | idtac ].

Lemma getindex_not_none (v x : pyval) (i : Z) :
  Py.getindex v i = Val x -> v <> PNone.
Proof. intros H ->. discriminate H. Qed.

Lemma is_none_spec (v : pyval) : Py.is_none v = true <-> v = PNone.
Proof. destruct v; simpl; split; intro H; congruence. Qed.

(** What the two [if] blocks leave behind when they go through: a
    question list that is not [None], and [options] bound as soon as one of
    the blocks ran. *)
Lemma show_question_locals_returned (reply : res pyval) (c c' : Ctx)
    (x : string * pyval * option pyval) :
  show_question_locals reply c = Returned x c' ->
  question_list (variables c') <> PNone /\
  (question_list (variables c) <> PNone ->
   question_list (variables c') = question_list (variables c)) /\
  question_count (variables c') = question_count (variables c) /\
  (question_list (variables c) = PNone \/ question_count (variables c) <> 0 ->
   snd x <> None).
Proof.
  unfold show_question_locals. intro H.
  inv_bind H as v0 c0 Hv0. inv_bind H as locals c1 Hfirst. inv_bind H as v1 c2 Hv1.
  assert (Hmid : question_list (variables c1) <> PNone /\
                 (question_list (variables c) <> PNone ->
                  question_list (variables c1) = question_list (variables c))
                 /\ question_count (variables c1)
                    = question_count (variables c)
                 /\ (question_list (variables c) = PNone ->
                     snd locals <> None)).
  { destruct (Py.is_none (question_list (variables c))) eqn:Hnone.
    - unfold get_question_from_openai, parse_user_input in Hfirst.
      inv_bind Hfirst as gq c3 Hgq.
      inv_bind Hgq as result c4 Hres. inv_bind Hgq as result2 c5 Hres2.
      inv_bind Hgq as u c6 Hset.
      apply ret_returned in Hgq. destruct Hgq as [-> ->].
      unfold setattr in Hset. inversion Hset; subst; clear Hset.
      inv_bind Hfirst as q0 c7 Hq0. apply getindex_not_none in Hq0.
      inv_bind Hfirst as text c8 Htext. inv_bind Hfirst as question c9 Hquestion.
      inv_bind Hfirst as qid c10 Hqid. inv_bind Hfirst as opts c11 Hopts.
      apply ret_returned in Hfirst. destruct Hfirst as [-> ->].
      simpl. repeat split; try assumption; try discriminate.
      intro Hne. apply is_none_spec in Hnone. contradiction.
    - apply ret_returned in Hfirst. destruct Hfirst as [-> ->].
      assert (question_list (variables c) <> PNone).
      { intro E. apply is_none_spec in E. congruence. }
      repeat split; try assumption; try reflexivity.
      intro E. contradiction. }
  destruct Hmid as (Hne & Hsame & Hcnt & Hopt).
  destruct (question_count (variables c1) =? 0) eqn:Hz; simpl in H.
  - apply ret_returned in H. destruct H as [-> ->].
    apply Z.eqb_eq in Hz.
    repeat split; try assumption.
    intros [E | E]; [ exact (Hopt E) | ]. congruence.
  - inv_bind H as q c3 Hq. inv_bind H as text c4 Htext.
    inv_bind H as question c5 Hquestion. inv_bind H as qid c6 Hqid.
    inv_bind H as opts c7 Hopts.
    apply ret_returned in H. destruct H as [-> ->].
    repeat split; try assumption. intros _. discriminate.
Qed.

Lemma show_question_returned (reply : res pyval) (c c' : Ctx) :
  on_enter_show_question reply c = Returned tt c' ->
  question_list (variables c') <> PNone /\
  question_count (variables c') = question_count (variables c) /\
  total_num_question (variables c') = total_num_question (variables c).
Proof.
  intro H.
  assert (Ht : total_num_question (variables c')
               = total_num_question (variables c)).
  { apply (preserves_returned
             (fun c => total_num_question (variables c)) _ _ _ _) in H;
      [ exact H | unfold on_enter_show_question; frame_tac ]. }
  split; [ | split; [ | exact Ht ] ].
  - unfold on_enter_show_question in H.
    inv_bind H as u0 c0 Hmark. inv_bind H as u1 c1 Hbody.
    unfold set_status in Hmark. inversion Hmark; subst; clear Hmark.
    inv_bind Hbody as locals c2 Hlocals.
    apply show_question_locals_returned in Hlocals.
    destruct Hlocals as (Hne & _).
    assert (Hq : question_list (variables c1) = question_list (variables c2)).
    { apply (preserves_returned
               (fun c => question_list (variables c)) _ _ _ _) in Hbody;
        [ exact Hbody | destruct locals as [[? ?] ?]; frame_tac ]. }
    unfold set_status in H. inversion H; subst; clear H. simpl.
    rewrite Hq. exact Hne.
  - apply (preserves_returned
             (fun c => question_count (variables c)) _ _ _ _) in H;
      [ exact H | unfold on_enter_show_question; frame_tac ].
Qed.

Lemma handler_keeps_bound (s : State) (h : res pyval -> M unit)
    (reply : res pyval) :
  handler_of s = Some h ->
  preserves (fun c => total_num_question (variables c)) (h reply).
Proof.
  destruct s; simpl; intro H; inversion H; subst h; clear H;
    try exact select_language_keeps_bound;
    cbv beta delta
      [on_enter_welcome_message_display on_enter_collect_name
       on_enter_collect_name_logic on_enter_collect_subject
       on_enter_collect_subject_logic on_enter_collect_grade
       on_enter_collect_grade_logic on_enter_confirmation
       on_enter_show_question on_enter_question_answer_input
       on_enter_answer_input_logic on_enter_waiting_message
       on_enter_calculate_score on_enter_thankyou_message
       on_enter_home_screen on_enter_home_screen_logic
       on_enter_learn_competencies on_enter_assessment
       on_enter_resources_tips on_enter_help_support on_enter_end];
    frame_tac.
Qed.

Lemma find_hd_filter {A} (p : A -> bool) (l : list A) :
  find p l = hd_error (filter p l).
Proof.
  induction l as [ | t l IH]; simpl; [ reflexivity | ].
  destruct (p t); simpl; [ reflexivity | exact IH ].
Qed.

(** The home screen only leads to its four destinations. *)
Lemma next_state_home_screen_logic (v : Vars) (s' : State) :
  next_state home_screen_logic v = Some s' ->
  In s' [learn_competencies; assessment; resources_tips; help_support].
Proof.
  unfold next_state, select_edge.
  rewrite find_hd_filter, enabled_home_edges.
  destruct (home_screen_option v); try discriminate.
  repeat match goal with
         | |- context [if ?b then _ else _] => destruct b
         end;
    simpl; intro H; inversion H; subst; simpl; auto 6.
Qed.


Lemma answer_input_logic_returned (c c' : Ctx) :
  on_enter_answer_input_logic c = Returned tt c' ->
  question_list (variables c') = question_list (variables c) /\
  question_count (variables c') = question_count (variables c).
Proof.
  intro H. split.
  - apply (preserves_returned
             (fun c => question_list (variables c)) _ _ _ _) in H;
      [ exact H | unfold on_enter_answer_input_logic; frame_tac ].
  - apply (preserves_returned
             (fun c => question_count (variables c)) _ _ _ _) in H;
      [ exact H | unfold on_enter_answer_input_logic; frame_tac ].
Qed.

(** A step of a walk keeps the invariant, whatever the bound [N >= 1]. *)
Lemma flow_step_inv (N : Z) (x y : State * Ctx) :
  1 <= N -> flow_step x y -> flow_inv N x -> flow_inv N y.
Proof.
  intros HN Hstep [Ht Hq].
  destruct Hstep as [s s' h reply c c' i Hh Hrun Hnext].
  simpl in Ht, Hq. unfold flow_inv. simpl fst. simpl snd.
  simpl variables.
  assert (Ht' : total_num_question (variables c') = N).
  { rewrite <- Ht.
    exact (preserves_returned _ _ _ _ _ (handler_keeps_bound s h reply Hh)
             Hrun). }
  split; [ exact Ht' | ].
  destruct s; simpl in Hh; inversion Hh; subst h; clear Hh;
    try (simpl in Hnext; inversion Hnext; subst s'; simpl; exact I).
  - (* show_question *)
    simpl in Hnext. inversion Hnext; subst s'. simpl.
    apply show_question_returned in Hrun.
    destruct Hrun as (Hne & Hc & _). split; [ exact Hne | ].
    rewrite Hc, Ht'. destruct Hq as [[_ H0] | [_ H0]]; lia.
  - (* question_answer_input *)
    simpl in Hnext. inversion Hnext; subst s'. simpl.
    destruct (question_answer_input_returns c)
      as (c1 & Hrun1 & Hc & Hl & _).
    rewrite Hrun1 in Hrun. inversion Hrun; subst c1.
    rewrite Hl, Hc, Ht'. destruct Hq as [Hne H0]. split; [ exact Hne | lia ].
  - (* answer_input_logic *)
    rewrite next_state_answer_input_logic in Hnext.
    apply answer_input_logic_returned in Hrun. destruct Hrun as [Hl Hc].
    destruct Hq as [Hne H0].
    destruct (total_num_question (variables c')
              =? question_count (variables c')) eqn:E;
      inversion Hnext; subst s'; simpl; [ exact I | ].
    apply Z.eqb_neq in E. right. rewrite Hl, Hc in *.
    split; [ exact Hne | lia ].
  - (* home_screen_logic *)
    apply next_state_home_screen_logic in Hnext.
    destruct Hnext as [<- | [<- | [<- | [<- | []]]]]; exact I.
  - (* assessment *)
    simpl in Hnext. inversion Hnext; subst s'. simpl.
    destruct quiz_reset_handlers as [Hreset _].
    destruct (Hreset c) as (c1 & Hrun1 & Hc & _ & Hl & _).
    rewrite Hrun1 in Hrun. inversion Hrun; subst c1.
    left. split; assumption.
Qed.

Lemma reaches_inv (N : Z) (x y : State * Ctx) :
  1 <= N -> reaches x y -> flow_inv N x -> flow_inv N y.
Proof.
  intros HN Hreach Hx. induction Hreach as [ | y z Hxy IH Hstep].
  - exact Hx.
  - eapply flow_step_inv; [ exact HN | exact Hstep | exact IH ].
Qed.

(** C10: on every entry into [show_question] that the flow reaches from its
    start, [question_list] is [None] exactly when [question_count] is 0, so
    exactly one of the two [if] blocks of the handler runs and [options] is
    bound when the blocks are through; and reading a list of at least
    [total_num_question] elements at the index [question_count] stays
    within the list. *)
Theorem C10_show_question_entry (c : Ctx) :
  flow_entry show_question c ->
  (question_list (variables c) = PNone <-> question_count (variables c) = 0)
  /\
  xorb (Py.is_none (question_list (variables c)))
       (negb (question_count (variables c) =? 0)) = true /\
  (forall reply c1 x c',
      variables c1 = variables c ->
      show_question_locals reply c1 = Returned x c' ->
      snd x <> None) /\
  (forall l,
      total_num_question (variables c) <= Z.of_nat (List.length l) ->
      0 <= question_count (variables c) < Z.of_nat (List.length l) /\
      exists q, Py.getindex (PList l) (question_count (variables c)) = Val q).
Proof.
  intros (c0 & Hdefault & Hreach).
  assert (Hinv : flow_inv 5 (show_question, c)).
  { eapply reaches_inv; [ lia | exact Hreach | ].
    split; simpl; [ rewrite Hdefault; reflexivity | exact I ]. }
  destruct Hinv as [Ht Hq]. simpl in Ht, Hq.
  assert (Hiff : question_list (variables c) = PNone <->
                 question_count (variables c) = 0).
  { destruct Hq as [[Hl Hc] | [Hl Hc]]; split; intro H; try assumption;
      try contradiction; lia. }
  split; [ exact Hiff | ]. split; [ | split ].
  - destruct Hq as [[Hl Hc] | [Hl Hc]].
    + rewrite Hl, Hc. reflexivity.
    + destruct (Py.is_none (question_list (variables c))) eqn:E.
      * apply is_none_spec in E. contradiction.
      * replace (question_count (variables c) =? 0) with false
          by (symmetry; apply Z.eqb_neq; lia).
        reflexivity.
  - intros reply c1 x c' Hv Hrun.
    apply show_question_locals_returned in Hrun.
    destruct Hrun as (_ & _ & _ & Hopt). apply Hopt. rewrite Hv.
    destruct Hq as [[Hl Hc] | [Hl Hc]]; [ left; exact Hl | right; lia ].
  - intros l Hlen.
    assert (Hrange : 0 <= question_count (variables c)
                     < Z.of_nat (List.length l)).
    { destruct Hq as [[_ H0] | [_ H0]]; lia. }
    split; [ exact Hrange | ].
    destruct (nth_error l (Z.to_nat (question_count (variables c))))
      as [q | ] eqn:Hnth.
    + exists q. rewrite <- (Z2Nat.id (question_count (variables c)))
        by lia.
      apply getindex_list. exact Hnth.
    + apply nth_error_None in Hnth. lia.
Qed.

End Flow.

(** * The flow on concrete inputs *)


(** The quiz with the declared bound of five questions. *)
Lemma C1_witness :
  exists trace c',
    walk_to Json.loads str_scalar strict_str select_language_prompt
      waiting_message 16 (fun _ => sample_reply 5) (fun _ => Some "A") 0
      assessment (initial_ctx None)
    = (trace, Arrived c') /\
    map fst trace = assessment :: cycles 5 /\
    answer_counts trace = [1; 2; 3; 4; 5] /\
    question_count (variables c') = 5.
Proof.
  destruct (C1_quiz_loop_runs_N_times Json.loads str_scalar strict_str
              select_language_prompt (fun s => eq_refl)
              (initial_ctx None) (fun _ => sample_reply 5)
              (fun _ => Some "A") (sample_questions 5) 16)
    as (_ & _ & trace & c' & Hwalk & Hstates & Hcounts & _ & Hfinal).
  - simpl. lia.
  - eexists. split; reflexivity.
  - reflexivity.
  - simpl. lia.
  - simpl. lia.
  - exists trace, c'. repeat split; assumption.
Defined.

(** C1 as stated fails in two ways.  With the repeat bound at 0 the
    entries into [answer_input_logic] see [question_count] at 1 and 2,
    above the bound, and the guard never turns false: the walk goes on until
    [show_question] reads past the two questions of the provider and
    raises.  With the declared bound of 5 and an answer of two questions
    the walk makes two rounds, then [show_question] raises; in neither case
    does the walk reach [waiting_message]. *)
Lemma C1_counterexample :
  (total_num_question (variables zero_bound_ctx) = 0 /\
   exists trace c',
     walk_to Json.loads str_scalar strict_str select_language_prompt
       waiting_message 16 (fun _ => sample_reply 2) (fun _ => Some "A") 0
       assessment zero_bound_ctx
     = (trace, HandlerRaised show_question IndexError c') /\
     map fst trace = assessment :: cycles 2 ++ [show_question] /\
     answer_counts trace = [1; 2]) /\
  (total_num_question (variables (initial_ctx None)) = 5 /\
   exists trace c',
     walk_to Json.loads str_scalar strict_str select_language_prompt
       waiting_message 16 (fun _ => sample_reply 2) (fun _ => Some "A") 0
       assessment (initial_ctx None)
     = (trace, HandlerRaised show_question IndexError c') /\
     map fst trace = assessment :: cycles 2 ++ [show_question]).
Proof.
  split; (split; [ reflexivity | ]); eexists; eexists;
    (split; [ vm_compute; reflexivity | ]); repeat split; reflexivity.
Qed.

(** The selection of the assessment, decoded by [Json.loads]. *)
Lemma C2_witness :
  exists c',
    on_enter_home_screen_logic Json.loads
      (initial_ctx (Some (selection_payload "assessment")))
    = Returned tt c' /\
    home_screen_option (variables c') = PStr "assessment" /\
    next_state home_screen_logic (variables c') = Some assessment.
Proof.
  destruct (C2_assessment_selected Json.loads
              (initial_ctx (Some (selection_payload "assessment")))
              eq_refl eq_refl)
    as (c' & Hrun & Hopt & _ & _ & Hnext & _).
  exists c'. repeat split; assumption.
Defined.

(** The first question of a quiz: [on_enter_show_question] assigns
    [WAIT_FOR_CALLBACK] and then [MOVE_FORWARD]. *)
Lemma C3_witness :
  exists c' l,
    on_enter_show_question strict_str (sample_reply 5) (initial_ctx None)
    = Returned tt c' /\
    statuses_set (initial_ctx None) c' l /\
    terminal (status c') = true /\
    List.length (filter terminal l) = 2%nat.
Proof.
  eexists.
  destruct (C3_terminal_statuses_per_invocation Json.loads str_scalar
              strict_str select_language_prompt show_question
              (on_enter_show_question strict_str) (sample_reply 5)
              (initial_ctx None) _ eq_refl eq_refl eq_refl)
    as (l & Hset & Hterm & Hlen).
  exists l. split; [ reflexivity | ].
  split; [ exact Hset | ]. split; [ exact Hterm | exact Hlen ].
Defined.

(** C4 as stated fails when the selection carries an identifier that is
    none of the four: the handler stores it and ends on [MOVE_FORWARD], and
    no edge is selected; the same holds on the declared defaults. *)
Lemma C4_counterexample :
  (exists c',
     on_enter_home_screen_logic Json.loads
       (initial_ctx (Some (selection_payload "quiz")))
     = Returned tt c' /\
     status c' = MOVE_FORWARD /\
     select_edge home_screen_logic "next" (variables c') = None) /\
  select_edge home_screen_logic "next" default_vars = None.
Proof.
  split; [ | reflexivity ].
  eexists. split; [ vm_compute; reflexivity | ]. split; reflexivity.
Qed.


(** An answer without the key [competencies]. *)
Lemma C6_witness :
  exists h,
    handler_of Json.loads str_scalar strict_str select_language_prompt
      learn_competencies = Some h /\
    h (Val (PDict [])) (initial_ctx None)
    = Raised KeyError (marked WAIT_FOR_ME (initial_ctx None)) /\
    run Json.loads str_scalar strict_str select_language_prompt 5
      (fun _ => Val (PDict [])) 0 learn_competencies (initial_ctx None)
    = Propagated KeyError
        (mkSession learn_competencies
           (marked WAIT_FOR_ME (initial_ctx None)) false).
Proof.
  destruct (C6_unreadable_reply_propagates Json.loads str_scalar strict_str
              select_language_prompt learn_competencies "competencies"
              (Val (PDict [])) (initial_ctx None) eq_refl eq_refl)
    as (h & c1 & Hh & Hrun & Hc1 & Hloop).
  - intro H. discriminate H.
  - exists h. subst c1. split; [ exact Hh | ]. split; [ exact Hrun | ].
    exact (Hloop 4%nat (fun _ => Val (PDict [])) eq_refl).
Defined.

(** C6 as stated fails: at [show_question] an answer that has [questions]
    where [result] is expected makes the handler raise [KeyError], and the
    run loop hands it on instead of returning a status. *)
Lemma C6_counterexample :
  advance Json.loads str_scalar strict_str select_language_prompt 5
    (fun _ => Val (PDict [("questions", PList (sample_questions 5))]))
    (mkSession show_question (initial_ctx None) false) None
  = Propagated KeyError
      (mkSession show_question
         (mkCtx default_vars WAIT_FOR_CALLBACK None [] [WAIT_FOR_CALLBACK])
         false).
Proof. reflexivity. Qed.

(** C8 as stated fails: free text, and an empty list, make the handler of
    [home_screen_logic] raise; the run loop hands the exception on, and no
    message was sent. *)
Lemma C8_counterexample :
  advance Json.loads str_scalar strict_str select_language_prompt 5
    (fun _ => Exc ProviderError)
    (mkSession home_screen_logic (initial_ctx None) false)
    (Some "I would like a quiz")
  = Propagated JSONDecodeError
      (mkSession home_screen_logic
         (mkCtx default_vars WAIT_FOR_ME (Some "I would like a quiz") []
            [WAIT_FOR_ME])
         false)
  /\
  advance Json.loads str_scalar strict_str select_language_prompt 5
    (fun _ => Exc ProviderError)
    (mkSession home_screen_logic (initial_ctx None) false) (Some "[]")
  = Propagated IndexError
      (mkSession home_screen_logic
         (mkCtx default_vars WAIT_FOR_ME (Some "[]") [] [WAIT_FOR_ME])
         false).
Proof. split; vm_compute; reflexivity. Qed.

(** The entry into [show_question] that follows the selection of the
    assessment on the home screen. *)
Lemma C10_witness :
  let c :=
    match snd (walk_to Json.loads str_scalar strict_str
                 select_language_prompt show_question 20
                 (fun _ => Exc ProviderError) (sample_inputs "assessment")
                 0 language_selection (initial_ctx None)) with
    | Arrived c => c
    | _ => initial_ctx None
    end in
  flow_entry Json.loads str_scalar strict_str select_language_prompt
    show_question c /\
  name (variables c) = Some "Asha" /\
  (question_list (variables c) = PNone <-> question_count (variables c) = 0)
  /\
  xorb (Py.is_none (question_list (variables c)))
       (negb (question_count (variables c) =? 0)) = true.
Proof.
  intro c.
  assert (Hc : flow_entry Json.loads str_scalar strict_str
                 select_language_prompt show_question c).
  { exists (initial_ctx None). split; [ reflexivity | ].
    eapply (walk_to_reaches Json.loads str_scalar strict_str
              select_language_prompt show_question
              (fun _ => Exc ProviderError) (sample_inputs "assessment")
              20 0).
    vm_compute. reflexivity. }
  split; [ exact Hc | ]. split; [ reflexivity | ].
  destruct (C10_show_question_entry Json.loads str_scalar strict_str
              select_language_prompt (fun c => eq_refl) c Hc)
    as (Hiff & Hxor & _).
  split; [ exact Hiff | exact Hxor ].
Defined.
